(** * voibot: the intent-routing core of [VoiAssistant] (src/voibot/chatbot.py)

    A shallow embedding of the class [VoiAssistant]: its constructor,
    [get_most_recent_response], [get_most_recent_query],
    [initialize_assistant] and [get_response].

    The collaborators that the module only imports (the helpers of [.utils],
    the PDF loader, the text splitter, the vector store, the retrieval chain
    and the two chat-model calls) are not part of the file.  They are gathered
    in a record [World] of oracles, one field per imported callable, each
    returning an [outcome] so that a call can raise.  Every call of
    [initialize_assistant] or [get_response] takes the world it runs in, so
    two calls may see different model answers. *)

From Stdlib Require Import String Ascii List Bool Arith Lia.
From Stdlib Require Import Numbers.DecimalString.
From stdpp Require Import base option gmap strings.
Import ListNotations.

Local Open Scope string_scope.
Local Open Scope list_scope.

(** ** Python values, exceptions, outcomes *)

(** The values that flow through [result] and [dont_know_response]: the
    constructor argument is [None], a [str] or a [dict] of strings. *)
Inductive pyval : Type :=
| PyNone
| PyStr (s : string)
| PyDict (d : list (string * string)).

(** Python truthiness, as used by [dont_know_response if dont_know_response
    else {}]. *)
Definition truthy (v : pyval) : bool :=
  match v with
  | PyNone => false
  | PyStr s => negb (String.eqb s EmptyString)
  | PyDict d => match d with [] => false | _ :: _ => true end
  end.

Definition is_str (v : pyval) : bool :=
  match v with PyStr _ => true | _ => false end.

Definition type_name (v : pyval) : string :=
  match v with
  | PyNone => "NoneType"
  | PyStr _ => "str"
  | PyDict _ => "dict"
  end.

(** The subclasses of [Exception] the embedding distinguishes.
    [ValidationError] is the error a message constructor raises on a content
    it does not accept; [msg] is the first line of its text. *)
Inductive exn : Type :=
| ValueError (msg : string)
| TypeError (msg : string)
| ValidationError (msg : string)
| Exception (msg : string).

(** [str(e)] *)
Definition exn_str (e : exn) : string :=
  match e with
  | ValueError m | TypeError m | ValidationError m | Exception m => m
  end.

Inductive outcome (A : Type) : Type :=
| Returned (a : A)
| Raised (e : exn).
Arguments Returned {A} a.
Arguments Raised {A} e.

(** Exceptions propagate through sequenced calls: [outcome] carries stdpp's
    monadic bind, written [x ← c; k]. *)
#[global] Instance outcome_ret : MRet outcome := fun A a => Returned a.
#[global] Instance outcome_bind : MBind outcome := fun A B k c =>
  match c with
  | Returned a => k a
  | Raised e => Raised e
  end.

(** ** Python [str] operations used by the static-template branch *)

Module PyString.

(** [s.startswith(p)] *)
Fixpoint startswith (p s : string) : bool :=
  match p with
  | EmptyString => true
  | String a p' =>
      match s with
      | EmptyString => false
      | String b s' => Ascii.eqb a b && startswith p' s'
      end
  end.

(** [old in s], substring test *)
Fixpoint contains (old s : string) : bool :=
  startswith old s ||
  match s with
  | EmptyString => false
  | String _ s' => contains old s'
  end.

(** [s.replace(old, new)] for a non-empty [old]: every non-overlapping
    occurrence, leftmost first, the scan resuming after the occurrence.
    [skip] counts the characters of a matched occurrence still to drop. *)
Fixpoint replace_from (skip : nat) (old new s : string) : string :=
  match s with
  | EmptyString => EmptyString
  | String c s' =>
      match skip with
      | S k => replace_from k old new s'
      | O =>
          if startswith old s
          then String.append new (replace_from (String.length old - 1) old new s')
          else String c (replace_from 0 old new s')
      end
  end.

Definition replace (old new s : string) : string := replace_from 0 old new s.

(** [sep.join(l)] *)
Fixpoint join (sep : string) (l : list string) : string :=
  match l with
  | [] => EmptyString
  | [x] => x
  | x :: rest => String.append x (String.append sep (join sep rest))
  end.

(** [str(n)] for a natural number *)
Definition of_nat (n : nat) : string := NilEmpty.string_of_uint (Nat.to_uint n).

End PyString.

(** ** Insertion-ordered dictionaries

    [pdf_urls] is iterated with [.items()] and the keys of [indices] are
    joined in the summary line, so for these two the insertion order of a
    Python [dict] is observable: they are association lists with unique keys.
    [replies] and [segment_assignments] are only read with [.get] and are
    finite maps ([gmap string string]). *)
Module PyDict.
Section Ops.
Context {V : Type}.

Fixpoint get (d : list (string * V)) (k : string) : option V :=
  match d with
  | [] => None
  | (k', v) :: rest => if String.eqb k' k then Some v else get rest k
  end.

(** [d[k] = v]: an existing key keeps its position. *)
Fixpoint set (d : list (string * V)) (k : string) (v : V) : list (string * V) :=
  match d with
  | [] => [(k, v)]
  | (k', v') :: rest =>
      if String.eqb k' k then (k', v) :: rest else (k', v') :: set rest k v
  end.

(** [k in d] *)
Definition mem (k : string) (d : list (string * V)) : bool :=
  match get d k with Some _ => true | None => false end.

Definition keys (d : list (string * V)) : list string := map fst d.

(** [not d] *)
Definition is_empty (d : list (string * V)) : bool :=
  match d with [] => true | _ :: _ => false end.
End Ops.
End PyDict.

(** ** Conversation memory ([ConversationBufferMemory]) *)

Inductive message : Type :=
| HumanMessage (content : pyval)
| AIMessage (content : pyval).

Definition content (m : message) : pyval :=
  match m with HumanMessage c | AIMessage c => c end.

Definition is_AIMessage (m : message) : bool :=
  match m with AIMessage _ => true | HumanMessage _ => false end.

Definition is_HumanMessage (m : message) : bool :=
  match m with HumanMessage _ => true | AIMessage _ => false end.

(** [memory.load_memory_variables({})]: the dictionary with the one key
    [memory_key="chat_history"], holding the buffered messages. *)
Definition load_memory_variables (buffer : list message)
  : list (string * list message) :=
  [("chat_history", buffer)].

(** [AIMessage(content=c)]: the constructor validates its content.  A [str]
    is accepted; a [dict] or [None] is not, and the constructor raises. *)
Definition content_rejected : exn :=
  ValidationError "1 validation error for AIMessage".

Definition new_AIMessage (c : pyval) : outcome message :=
  match c with
  | PyStr _ => Returned (AIMessage c)
  | _ => Raised content_rejected
  end.

(** [memory.save_context({"question": q}, {"response": r})] makes the human
    message and the assistant message, then appends both to the buffer.  When
    the response is not accepted as a message content the call raises and the
    buffer is as it was. *)
Definition save_context (buffer : list message) (question : string) (response : pyval)
  : outcome (list message) :=
  ai ← new_AIMessage response;
  Returned (buffer ++ [HumanMessage (PyStr question); ai]).

(** ** The assistant and the world it runs in *)

Definition document := string.

(** A vector store built by [Chroma.from_documents]. *)
Inductive index : Type := Chroma (docs : list document).

(** A sampling temperature in tenths: [Tenths 5] is [0.5], [Tenths 9] is [0.9]. *)
Inductive temperature : Type := Tenths (n : nat).

Record ChatOpenAI : Type := { model : string; llm_temperature : temperature }.

Record VoiAssistant : Type := {
  openai_key : string;
  pdf_urls : list (string * list string);
  role : string;
  intents : list string;
  replies : gmap string string;
  segment_assignments : gmap string string;
  dont_know_response : pyval;
  indices : list (string * index);
  llm : ChatOpenAI;
  memory : list message
}.

Definition with_indices (self : VoiAssistant) (ix : list (string * index)) : VoiAssistant :=
  {| openai_key := openai_key self; pdf_urls := pdf_urls self; role := role self;
     intents := intents self; replies := replies self;
     segment_assignments := segment_assignments self;
     dont_know_response := dont_know_response self;
     indices := ix; llm := llm self; memory := memory self |}.

Definition with_memory (self : VoiAssistant) (m : list message) : VoiAssistant :=
  {| openai_key := openai_key self; pdf_urls := pdf_urls self; role := role self;
     intents := intents self; replies := replies self;
     segment_assignments := segment_assignments self;
     dont_know_response := dont_know_response self;
     indices := indices self; llm := llm self; memory := m |}.

(** The imported callables.  [chain_run] stands for building the
    [ConversationalRetrievalChain] over the segment's retriever and running it;
    the chain is given the assistant's own memory object ([memory=self.memory]),
    so besides its answer it yields the messages it stored in that memory. *)
Record World : Type := {
  OpenAIEmbeddings : outcome unit;
  download_pdf_from_url : string -> outcome string;
  loader_load : string -> outcome (list document);
  split_documents : nat -> nat -> list document -> outcome (list document);
  os_remove : string -> outcome unit;
  from_documents : list document -> outcome index;
  prompt_func : string -> nat -> string -> list string -> outcome string;
  openaiAPI : string -> temperature -> string -> outcome string;
  openaiReply : string -> temperature -> string -> string -> string -> outcome string;
  chain_run : ChatOpenAI -> index -> string -> list (string * list message)
              -> outcome (string * list message)
}.

(** What a call does that can be observed from outside. *)
Inductive event : Type :=
| EvPrint (line : string)
| EvClassify (prompt : string)
| EvLookupIndex (segment : string)
| EvRetrieve (segment query : string)
| EvRoleReply (query category : string)
| EvRecentResponse
| EvRecentQuery
| EvSaveContext (query : string) (result : pyval).

(** *** [__init__] *)

(** The three shapes of the [pdf_urls] argument. *)
Inductive pdf_urls_arg : Type :=
| UrlsDict (d : list (string * list string))
| UrlsList (l : list string)
| UrlsOne (u : string).

Definition VoiAssistant_init (key : string) (urls : pdf_urls_arg) (role_ : string)
    (intents_ : list string) (replies_ segment_assignments_ : gmap string string)
    (dont_know_response_ : pyval) : VoiAssistant :=
  {| openai_key := key;
     pdf_urls := match urls with
                 | UrlsDict d => d
                 | UrlsList l => [("unified", l)]
                 | UrlsOne u => [("unified", [u])]
                 end;
     role := role_;
     intents := intents_;
     replies := replies_;
     segment_assignments := segment_assignments_;
     dont_know_response :=
       if truthy dont_know_response_ then dont_know_response_ else PyDict [];
     indices := [];
     llm := {| model := "gpt-4o-mini"; llm_temperature := Tenths 9 |};
     memory := [] |}.

(** *** [get_most_recent_response], [get_most_recent_query] *)

Definition response_not_found : string :=
  "Error: Most recent response could not be retrieved".
Definition query_not_found : string :=
  "Error: Most recent query could not be retrieved".

(** The first message from the end that satisfies [p] ([for message in
    reversed(...)]: [if isinstance(message, ...)]: [return message.content]). *)
Definition last_content (p : message -> bool) (history : list message) : option pyval :=
  content <$> List.find p (rev history).

Definition get_most_recent_response (self : VoiAssistant) : pyval :=
  let chat_history := load_memory_variables (memory self) in
  match PyDict.get chat_history "chat_history" with
  | Some ((_ :: _) as history) =>
      match last_content is_AIMessage history with
      | Some c => c
      | None => PyStr response_not_found
      end
  | _ => PyStr response_not_found
  end.

Definition get_most_recent_query (self : VoiAssistant) : pyval :=
  let chat_history := load_memory_variables (memory self) in
  match PyDict.get chat_history "chat_history" with
  | Some ((_ :: _) as history) =>
      match last_content is_HumanMessage history with
      | Some c => c
      | None => PyStr query_not_found
      end
  | _ => PyStr query_not_found
  end.

(** *** [initialize_assistant] *)

(** The inner loop over the URLs of one segment, accumulating [all_docs]. *)
Fixpoint load_urls (w : World) (urls : list string) (all_docs : list document)
  : outcome (list document) :=
  match urls with
  | [] => Returned all_docs
  | pdf_url :: rest =>
      downloaded_pdf_path ← download_pdf_from_url w pdf_url;
      documents ← loader_load w downloaded_pdf_path;
      docs ← split_documents w 1000 200 documents;
      _ ← os_remove w downloaded_pdf_path;
      load_urls w rest (all_docs ++ docs)
  end.

(** One iteration of the outer loop: the index of one segment. *)
Definition build_segment (w : World) (urls : list string) : outcome index :=
  all_docs ← load_urls w urls [];
  from_documents w all_docs.

(** The outer loop.  It runs inside the single [try]: the first exception
    leaves the loop, and the indices assigned so far stay in [self.indices]. *)
Fixpoint build_segments (w : World) (items : list (string * list string))
    (ix : list (string * index)) : list (string * index) * option exn :=
  match items with
  | [] => (ix, None)
  | (segment, urls) :: rest =>
      match build_segment w urls with
      | Returned i => build_segments w rest (PyDict.set ix segment i)
      | Raised e => (ix, Some e)
      end
  end.

Definition initialized_line (ix : list (string * index)) : string :=
  "Assistant initialized with " +:+ PyString.of_nat (length ix) +:+ " segments: "
    +:+ PyString.join ", " (PyDict.keys ix).

Definition init_error_line (e : exn) : string :=
  "Error initializing assistant: " +:+ exn_str e.

Definition initialize_assistant (w : World) (self : VoiAssistant)
  : VoiAssistant * list event :=
  match OpenAIEmbeddings w with
  | Raised e => (self, [EvPrint (init_error_line e)])
  | Returned _ =>
      match build_segments w (pdf_urls self) (indices self) with
      | (ix, None) => (with_indices self ix, [EvPrint (initialized_line ix)])
      | (ix, Some e) => (with_indices self ix, [EvPrint (init_error_line e)])
      end
  end.

(** *** [get_response] *)

Definition not_initialized : exn := ValueError "Assistant is not initialized.".
Definition fallback_reply : string := "Unfortunately, I am unable to help you with that.".
Definition default_reply : string := "I'm not sure how to respond to that.".
Definition response_token : string := "{most_recent_response}".
Definition query_token : string := "{most_recent_query}".

Definition missing_segment (segment : string) : string :=
  "Error: No database found for segment '" +:+ segment +:+ "'".

(** [str.replace] with a second argument that is not a [str]. *)
Definition replace_type_error (v : pyval) : exn :=
  TypeError ("replace() argument 2 must be str, not " +:+ type_name v).

(** [category in self.intents] *)
Definition in_intents (category : string) (l : list string) : bool :=
  existsb (String.eqb category) l.

(** [self.replies.get(category) == tag] *)
Definition reply_is (self : VoiAssistant) (category tag : string) : bool :=
  match replies self !! category with
  | Some r => String.eqb r tag
  | None => false
  end.

(** [result in ("I don't know", "I don't know.")] *)
Definition is_dont_know (result : string) : bool :=
  String.eqb result "I don't know" || String.eqb result "I don't know.".

(** The result of a call, the assistant after it, and what it did. *)
Definition run : Type := outcome pyval * VoiAssistant * list event.

(** The last two statements: [self.memory.save_context(...)], [return result].
    An exception of [save_context] leaves the function before the [return]. *)
Definition save_and_return (self : VoiAssistant) (trace : list event)
    (query : string) (result : pyval) : run :=
  let trace := trace ++ [EvSaveContext query result] in
  match save_context (memory self) query result with
  | Returned buffer => (Returned result, with_memory self buffer, trace)
  | Raised e => (Raised e, self, trace)
  end.

(** The placeholder substitution of the static-template branch (the [if] /
    [elif] on the two tokens): the substituted text, or the [TypeError] of
    [str.replace] when the looked-up content is not a [str], and the one memory
    lookup made, if any. *)
Definition substitute (self : VoiAssistant) (result : string)
  : outcome string * list event :=
  if PyString.contains response_token result then
    match get_most_recent_response self with
    | PyStr previous_response =>
        (Returned (PyString.replace response_token previous_response result),
         [EvRecentResponse])
    | v => (Raised (replace_type_error v), [EvRecentResponse])
    end
  else if PyString.contains query_token result then
    match get_most_recent_query self with
    | PyStr previous_query =>
        (Returned (PyString.replace query_token previous_query result),
         [EvRecentQuery])
    | v => (Raised (replace_type_error v), [EvRecentQuery])
    end
  else (Returned result, []).

Definition get_response (w : World) (self : VoiAssistant) (query : string) : run :=
  if PyDict.is_empty (indices self) then (Raised not_initialized, self, [])
  else
    match prompt_func w query 1 (role self) (intents self) with
    | Raised e => (Raised e, self, [])
    | Returned prompt =>
    match openaiAPI w prompt (Tenths 5) (openai_key self) with
    | Raised e => (Raised e, self, [EvClassify prompt])
    | Returned category =>
        let trace := [EvClassify prompt] in
        if in_intents category (intents self) then
          if reply_is self category "RAG" then
            let segment := default "unified" (segment_assignments self !! category) in
            let trace := trace ++ [EvLookupIndex segment] in
            match PyDict.get (indices self) segment with
            | None => (Returned (PyStr (missing_segment segment)), self, trace)
            | Some ix =>
                let trace := trace ++ [EvRetrieve segment query] in
                match chain_run w (llm self) ix query
                        (load_memory_variables (memory self)) with
                | Raised e => (Raised e, self, trace)
                | Returned (result, stored) =>
                    let self := with_memory self (memory self ++ stored) in
                    if is_dont_know result
                    then save_and_return self trace query (dont_know_response self)
                    else save_and_return self trace query (PyStr result)
                end
            end
          else if reply_is self category "role_based_llm_reply" then
            let trace := trace ++ [EvRoleReply query category] in
            match openaiReply w query (Tenths 9) category (openai_key self) (role self) with
            | Raised e => (Raised e, self, trace)
            | Returned result => save_and_return self trace query (PyStr result)
            end
          else
            let result := default default_reply (replies self !! category) in
            match substitute self result with
            | (Returned result, lookups) =>
                save_and_return self (trace ++ lookups) query (PyStr result)
            | (Raised e, lookups) => (Raised e, self, trace ++ lookups)
            end
        else save_and_return self trace query (PyStr fallback_reply)
    end
    end.

(** Sequential calls, each in its own world; a raised exception is the
    caller's to handle and does not stop the later calls. *)
Fixpoint respond_all (self : VoiAssistant) (calls : list (World * string))
  : list (outcome pyval) * VoiAssistant :=
  match calls with
  | [] => ([], self)
  | (w, query) :: rest =>
      let '(r, self', _) := get_response w self query in
      let '(rs, self'') := respond_all self' rest in
      (r :: rs, self'')
  end.

(** ** Vocabulary of the statements *)

(** The preconditions shared by the routing claims: the store is not empty and
    the classifier labelled the query [category]. *)
Definition classified (w : World) (self : VoiAssistant) (query prompt category : string)
  : Prop :=
  PyDict.is_empty (indices self) = false /\
  prompt_func w query 1 (role self) (intents self) = Returned prompt /\
  openaiAPI w prompt (Tenths 5) (openai_key self) = Returned category.

(** The guard of the RAG branch that returns early: the classified intent is
    a RAG intent and its segment is not in the store. *)
Definition missing_segment_guard (w : World) (self : VoiAssistant) (query : string)
  : bool :=
  match prompt_func w query 1 (role self) (intents self) with
  | Returned prompt =>
      match openaiAPI w prompt (Tenths 5) (openai_key self) with
      | Returned category =>
          in_intents category (intents self) && reply_is self category "RAG" &&
          negb (PyDict.mem (default "unified" (segment_assignments self !! category))
                           (indices self))
      | Raised _ => false
      end
  | Raised _ => false
  end.

(** A template seen as a sequence of literal text and placeholder tokens. *)
Inductive piece : Type :=
| Lit (s : string)
| ResponseToken
| QueryToken.

(** The text of a template in which the response placeholders read [response]
    and the query placeholders read [query]. *)
Fixpoint fill (response query : string) (ps : list piece) : string :=
  match ps with
  | [] => EmptyString
  | Lit s :: rest => s +:+ fill response query rest
  | ResponseToken :: rest => response +:+ fill response query rest
  | QueryToken :: rest => query +:+ fill response query rest
  end.

(** The template as written: each placeholder reads as its own token. *)
Definition render (ps : list piece) : string := fill response_token query_token ps.

(** Literal text without an opening brace cannot begin a token. *)
Definition plain (s : string) : bool := negb (PyString.contains "{" s).

Definition plain_literal (p : piece) : Prop :=
  match p with Lit s => plain s = true | _ => True end.

Definition is_response_token (p : piece) : bool :=
  match p with ResponseToken => true | _ => false end.

Definition is_query_token (p : piece) : bool :=
  match p with QueryToken => true | _ => false end.

(** The memory lookups among the events of a call. *)
Definition is_lookup (e : event) : bool :=
  match e with EvRecentResponse | EvRecentQuery => true | _ => false end.

(** The template of a static intent: [self.replies.get(category, default)]. *)
Definition template_of (self : VoiAssistant) (category : string) : string :=
  default default_reply (replies self !! category).

(** A token is an opening brace followed by something. *)
Definition braced (tok : string) : Prop := exists t, tok = String "{" t.

(** The body of the inner loop of [initialize_assistant] for one URL: download
    the PDF, load it, split it into chunks, remove the downloaded file. *)
Definition load_pdf (w : World) (pdf_url : string) : outcome (list document) :=
  downloaded_pdf_path ← download_pdf_from_url w pdf_url;
  documents ← loader_load w downloaded_pdf_path;
  docs ← split_documents w 1000 200 documents;
  _ ← os_remove w downloaded_pdf_path;
  Returned docs.

(** A declared segment and the store entry built for it. *)
Definition built_from (w : World) (declared : string * list string)
    (entry : string * index) : Prop :=
  fst declared = fst entry /\ build_segment w (snd declared) = Returned (snd entry).

(** ** A concrete deployment

    The scenario of the specification: three intents, one per reply kind, and
    a world whose model answers are fixed per call. *)
Module Shop.

Definition shop_intents : list string := ["greeting"; "refund"; "other"].

Definition shop_replies : gmap string string :=
  <["greeting" := "Hello, {most_recent_query}!"]>
    (<["refund" := "RAG"]> (<["other" := "role_based_llm_reply"]> ∅)).

Definition refund_pdf : string := "https://docs.example/refund.pdf".
Definition billing_pdf : string := "https://down.example/billing.pdf".

(** A world in which the URLs satisfying [unreachable] cannot be fetched,
    the classifier answers [category], the retrieval chain answers [answer]
    (and stores the turn in the memory it was given), and the role-based
    model answers [reply]. *)
Definition world (unreachable : string -> bool) (category answer reply : string)
  : World :=
  {| OpenAIEmbeddings := Returned tt;
     download_pdf_from_url := fun url =>
       if unreachable url then Raised (Exception ("cannot fetch " +:+ url))
       else Returned ("/tmp/" +:+ url);
     loader_load := fun path => Returned [path];
     split_documents := fun _ _ documents => Returned documents;
     os_remove := fun _ => Returned tt;
     from_documents := fun all_docs => Returned (Chroma all_docs);
     prompt_func := fun query _ _ _ => Returned ("classify: " +:+ query);
     openaiAPI := fun _ _ _ => Returned category;
     openaiReply := fun _ _ _ _ _ => Returned reply;
     chain_run := fun _ _ question _ =>
       Returned (answer, [HumanMessage (PyStr question); AIMessage (PyStr answer)]) |}.

Definition online : string -> bool := fun _ => false.
Definition billing_down : string -> bool := String.eqb billing_pdf.

(** The worlds of the scenarios: one for initialization, in which no model
    is asked anything; one in which only the classifier's label matters; one
    in which the retrieval chain's answer matters too. *)
Definition installing (unreachable : string -> bool) : World :=
  world unreachable "none" "none" "none".
Definition classifies (category : string) : World :=
  world online category "none" "none".
Definition answers (category answer : string) : World :=
  world online category answer "none".

(** One implicit segment "unified". *)
Definition fresh (dont_know : pyval) : VoiAssistant :=
  VoiAssistant_init "sk-test" (UrlsOne refund_pdf) "a shop assistant"
    shop_intents shop_replies ∅ dont_know.

Definition ready (dont_know : pyval) : VoiAssistant :=
  fst (initialize_assistant (installing online) (fresh dont_know)).

(** Two declared segments, "billing" first; refunds are answered from
    "billing". *)
Definition two_segments : VoiAssistant :=
  VoiAssistant_init "sk-test"
    (UrlsDict [("billing", [billing_pdf]); ("unified", [refund_pdf])])
    "a shop assistant" shop_intents shop_replies
    {["refund" := "billing"]} PyNone.

(** The same segments declared in the other order. *)
Definition two_segments_swapped : VoiAssistant :=
  VoiAssistant_init "sk-test"
    (UrlsDict [("unified", [refund_pdf]); ("billing", [billing_pdf])])
    "a shop assistant" shop_intents shop_replies
    {["refund" := "billing"]} PyNone.

(** An assistant in mid-conversation whose intent "recap" has a template
    with both placeholders, and whose intent "shout" is configured with a
    lower-case variant of the RAG tag. *)
Definition recap : VoiAssistant :=
  {| openai_key := "sk-test";
     pdf_urls := [("unified", [refund_pdf])];
     role := "a shop assistant";
     intents := ["recap"; "shout"; "silent"];
     replies :=
       <["recap" := "You asked {most_recent_query}; I said {most_recent_response}"]>
         (<["shout" := "rag"]> ∅);
     segment_assignments := ∅;
     dont_know_response := PyDict [];
     indices := [("unified", Chroma ["/tmp/https://docs.example/refund.pdf"])];
     llm := {| model := "gpt-4o-mini"; llm_temperature := Tenths 9 |};
     memory := [HumanMessage (PyStr "hi"); AIMessage (PyStr "Hello!")] |}.

(** A world whose classifier cannot be reached. *)
Definition classifier_down : World :=
  {| OpenAIEmbeddings := Returned tt;
     download_pdf_from_url := download_pdf_from_url (installing online);
     loader_load := loader_load (installing online);
     split_documents := split_documents (installing online);
     os_remove := os_remove (installing online);
     from_documents := from_documents (installing online);
     prompt_func := prompt_func (installing online);
     openaiAPI := fun _ _ _ => Raised (Exception "connection timed out");
     openaiReply := openaiReply (installing online);
     chain_run := chain_run (installing online) |}.

End Shop.

(** ** Basic facts about the building blocks *)

Section Building_blocks.

Lemma append_cons (c : ascii) (a s : string) :
  String c a +:+ s = String c (a +:+ s).
Proof. reflexivity. Qed.

Lemma append_nil (s : string) : EmptyString +:+ s = s.
Proof. reflexivity. Qed.

Lemma append_assoc (a b c : string) : (a +:+ b) +:+ c = a +:+ (b +:+ c).
Proof.
  induction a as [|x a IH]; [reflexivity|].
  rewrite !append_cons. by rewrite IH.
Qed.

Lemma startswith_append (p s : string) : PyString.startswith p (p +:+ s) = true.
Proof.
  induction p as [|a p IH]; [reflexivity|].
  rewrite append_cons. cbn. rewrite Ascii.eqb_refl. exact IH.
Qed.

Lemma contains_startswith (p s : string) :
  PyString.startswith p s = true -> PyString.contains p s = true.
Proof. intros H. destruct s; cbn; rewrite H; reflexivity. Qed.

Lemma contains_append_r (p a s : string) :
  PyString.contains p s = true -> PyString.contains p (a +:+ s) = true.
Proof.
  intros H. induction a as [|c a IH]; [exact H|].
  rewrite append_cons. cbn. rewrite IH. apply orb_true_r.
Qed.

Lemma contains_infix (p a b : string) :
  PyString.contains p (a +:+ p +:+ b) = true.
Proof. apply contains_append_r, contains_startswith, startswith_append. Qed.

(** The string operations behave as Python's on small inputs. *)
Example replace_nonoverlapping : PyString.replace "aa" "b" "aaaaa" = "bba".
Proof. reflexivity. Qed.

Example replace_every_occurrence :
  PyString.replace "{most_recent_response}" "R"
    "a{most_recent_response}b{most_recent_query}c{most_recent_response}"
  = "aRb{most_recent_query}cR".
Proof. reflexivity. Qed.

Example contains_is_case_sensitive :
  PyString.contains "{most_recent_query}" "Hello, {Most_Recent_Query}!" = false.
Proof. reflexivity. Qed.

Example join_keys : PyString.join ", " ["unified"; "billing"] = "unified, billing".
Proof. reflexivity. Qed.

Example of_nat_decimal : PyString.of_nat 0 = "0" /\ PyString.of_nat 12 = "12".
Proof. split; reflexivity. Qed.

Lemma in_intents_In (category : string) (l : list string) :
  in_intents category l = true <-> In category l.
Proof.
  unfold in_intents. rewrite existsb_exists. split.
  - intros (x & Hx & Heq). apply String.eqb_eq in Heq. by subst.
  - intros H. exists category. split; [exact H | apply String.eqb_refl].
Qed.

Lemma in_intents_not_In (category : string) (l : list string) :
  ~ In category l -> in_intents category l = false.
Proof.
  intros H. destruct (in_intents category l) eqn:E; [|reflexivity].
  apply in_intents_In in E. contradiction.
Qed.

Lemma reply_is_Some (self : VoiAssistant) (category tag : string) :
  reply_is self category tag = true <-> replies self !! category = Some tag.
Proof.
  unfold reply_is. destruct (replies self !! category) as [r|]; split; intros H;
    try discriminate.
  - apply String.eqb_eq in H. by subst.
  - injection H as ->. apply String.eqb_refl.
Qed.

Lemma reply_is_not (self : VoiAssistant) (category tag : string) :
  replies self !! category <> Some tag -> reply_is self category tag = false.
Proof.
  intros H. destruct (reply_is self category tag) eqn:E; [|reflexivity].
  apply reply_is_Some in E. contradiction.
Qed.

Lemma is_empty_nil {V : Type} (d : list (string * V)) :
  PyDict.is_empty d = true <-> d = [].
Proof. destruct d; split; intros H; try reflexivity; discriminate. Qed.

Lemma get_set_eq {V : Type} (d : list (string * V)) (k : string) (v : V) :
  PyDict.get (PyDict.set d k v) k = Some v.
Proof.
  induction d as [|[k' v'] d IH]; cbn.
  - by rewrite String.eqb_refl.
  - destruct (String.eqb k' k) eqn:E; cbn; rewrite E; [reflexivity | exact IH].
Qed.

Lemma get_set_ne {V : Type} (d : list (string * V)) (k k' : string) (v : V) :
  k <> k' -> PyDict.get (PyDict.set d k v) k' = PyDict.get d k'.
Proof.
  intros Hne. induction d as [|[k0 v0] d IH]; cbn.
  - destruct (String.eqb k k') eqn:E; [|reflexivity].
    apply String.eqb_eq in E. contradiction.
  - destruct (String.eqb k0 k) eqn:E; cbn.
    + apply String.eqb_eq in E. subst k0.
      destruct (String.eqb k k') eqn:E'; [|reflexivity].
      apply String.eqb_eq in E'. contradiction.
    + destruct (String.eqb k0 k'); [reflexivity | exact IH].
Qed.

Lemma mem_set {V : Type} (d : list (string * V)) (k k' : string) (v : V) :
  PyDict.mem k' (PyDict.set d k v) = String.eqb k k' || PyDict.mem k' d.
Proof.
  unfold PyDict.mem. destruct (String.eqb k k') eqn:E.
  - apply String.eqb_eq in E. subst. by rewrite get_set_eq.
  - apply String.eqb_neq in E. by rewrite get_set_ne.
Qed.

End Building_blocks.

(** ** Conversation memory *)

Section Memory.

Lemma get_most_recent_response_last (self : VoiAssistant) :
  get_most_recent_response self =
  default (PyStr response_not_found) (last_content is_AIMessage (memory self)).
Proof.
  unfold get_most_recent_response. cbn.
  destruct (memory self) as [|m ms]; [reflexivity|].
  by destruct (last_content is_AIMessage (m :: ms)).
Qed.

Lemma get_most_recent_query_last (self : VoiAssistant) :
  get_most_recent_query self =
  default (PyStr query_not_found) (last_content is_HumanMessage (memory self)).
Proof.
  unfold get_most_recent_query. cbn.
  destruct (memory self) as [|m ms]; [reflexivity|].
  by destruct (last_content is_HumanMessage (m :: ms)).
Qed.

Lemma last_content_saved_response (buffer : list message) (q : string) (r : pyval) :
  last_content is_AIMessage (buffer ++ [HumanMessage (PyStr q); AIMessage r]) = Some r.
Proof. unfold last_content. rewrite rev_app_distr. reflexivity. Qed.

Lemma last_content_saved_query (buffer : list message) (q : string) (r : pyval) :
  last_content is_HumanMessage (buffer ++ [HumanMessage (PyStr q); AIMessage r])
  = Some (PyStr q).
Proof. unfold last_content. rewrite rev_app_distr. reflexivity. Qed.

(** A save goes through exactly for a string response, and then appends the
    turn. *)
Lemma save_context_Returned (buffer saved : list message) (q : string) (r : pyval) :
  save_context buffer q r = Returned saved ->
  is_str r = true /\ saved = buffer ++ [HumanMessage (PyStr q); AIMessage r].
Proof. destruct r; cbn; intros H; try discriminate H. by injection H as <-. Qed.

Lemma save_context_Raised (buffer : list message) (q : string) (r : pyval) (e : exn) :
  save_context buffer q r = Raised e -> is_str r = false /\ e = content_rejected.
Proof. destruct r; cbn; intros H; try discriminate H; by injection H as <-. Qed.

Lemma save_and_return_str (self : VoiAssistant) (trace : list event) (q s : string) :
  save_and_return self trace q (PyStr s) =
    (Returned (PyStr s),
     with_memory self (memory self ++ [HumanMessage (PyStr q); AIMessage (PyStr s)]),
     trace ++ [EvSaveContext q (PyStr s)]).
Proof. reflexivity. Qed.

Lemma save_and_return_Returned (self self' : VoiAssistant) (trace trace' : list event)
    (q : string) (r v : pyval) :
  save_and_return self trace q r = (Returned v, self', trace') ->
  v = r /\ is_str r = true /\
  self' = with_memory self (memory self ++ [HumanMessage (PyStr q); AIMessage r]).
Proof.
  unfold save_and_return.
  destruct (save_context (memory self) q r) as [saved|e] eqn:E; intros H;
    [|discriminate H].
  apply save_context_Returned in E as [Hstr ->]. by injection H as <- <- _.
Qed.

(** Right after a turn is saved, both lookups read that turn. *)
Lemma recent_after_save (self self' : VoiAssistant) (trace trace' : list event)
    (q : string) (r v : pyval) :
  save_and_return self trace q r = (Returned v, self', trace') ->
  memory self' = memory self ++ [HumanMessage (PyStr q); AIMessage v] /\
  get_most_recent_query self' = PyStr q /\
  get_most_recent_response self' = v.
Proof.
  intros H. apply save_and_return_Returned in H as (-> & _ & ->).
  split; [reflexivity|].
  rewrite get_most_recent_query_last, get_most_recent_response_last.
  cbn [memory with_memory].
  by rewrite last_content_saved_query, last_content_saved_response.
Qed.

End Memory.

(** ** Routing *)

(** Unfolds [get_response] and replays the guards that the hypotheses decide. *)
Ltac route :=
  unfold get_response;
  repeat match goal with
  | H : PyDict.is_empty (indices ?s) = _ |- _ => rewrite H
  | H : indices ?s = _ |- _ => rewrite H
  | H : prompt_func _ _ _ _ _ = _ |- _ => rewrite H
  | H : openaiAPI _ _ _ _ = _ |- _ => rewrite H
  | H : in_intents _ _ = _ |- _ => rewrite H
  | H : reply_is _ _ _ = _ |- _ => rewrite H
  | H : PyDict.get _ _ = _ |- _ => rewrite H
  | H : chain_run _ _ _ _ _ = _ |- _ => rewrite H
  | H : openaiReply _ _ _ _ _ _ = _ |- _ => rewrite H
  | H : is_dont_know _ = _ |- _ => rewrite H
  end.

(** C7: with no segment index built (whether [initialize_assistant] was never
    called or built nothing), [get_response] raises the [ValueError]
    "Assistant is not initialized." first thing: nothing is classified,
    looked up, answered or saved, whatever the world. *)
Theorem get_response_not_initialized (w : World) (self : VoiAssistant) (query : string) :
  indices self = [] ->
  get_response w self query =
    (Raised (ValueError "Assistant is not initialized."), self, []).
Proof. intros H. unfold get_response. rewrite H. reflexivity. Qed.

Lemma get_response_not_initialized_witness :
  (* never initialized *)
  get_response (Shop.answers "refund" "30 days")
               (Shop.fresh PyNone) "can I get a refund?" =
    (Raised (ValueError "Assistant is not initialized."), Shop.fresh PyNone, [])
  /\
  (* initialized, but the first segment failed and nothing was built *)
  let nothing_built :=
    fst (initialize_assistant (Shop.installing Shop.billing_down) Shop.two_segments) in
  get_response (Shop.classifies "greeting") nothing_built "hi" =
    (Raised (ValueError "Assistant is not initialized."), nothing_built, []).
Proof.
  split.
  - apply get_response_not_initialized. reflexivity.
  - apply get_response_not_initialized. reflexivity.
Defined.

(** C1: when the classified label is not one of the declared intents,
    [get_response] returns (does not raise) exactly the fixed fallback string,
    after saving the turn. *)
Theorem unknown_intent_fallback (w : World) (self : VoiAssistant)
    (query prompt category : string) :
  classified w self query prompt category ->
  ~ In category (intents self) ->
  get_response w self query =
    (Returned (PyStr "Unfortunately, I am unable to help you with that."),
     with_memory self (memory self ++ [HumanMessage (PyStr query);
                                       AIMessage (PyStr fallback_reply)]),
     [EvClassify prompt; EvSaveContext query (PyStr fallback_reply)]).
Proof.
  intros (Hix & Hp & Hc) Hin. apply in_intents_not_In in Hin.
  route. reflexivity.
Qed.

Lemma unknown_intent_fallback_witness :
  fst (fst (get_response (Shop.classifies "weather")
                         (Shop.ready PyNone) "will it rain?")) =
    Returned (PyStr "Unfortunately, I am unable to help you with that.").
Proof.
  rewrite (unknown_intent_fallback _ _ _ "classify: will it rain?" "weather").
  - reflexivity.
  - repeat split; reflexivity.
  - cbn. intros [H|[H|[H|[]]]]; discriminate H.
Defined.

(** C6: for a RAG intent whose assigned segment
    ([segment_assignments.get(category, "unified")]) has no built index,
    [get_response] returns, as an ordinary string and without raising, the
    error message "Error: No database found for segment '<segment>'", which
    contains the segment name; no retrieval is run. *)
Theorem missing_segment_reported (w : World) (self : VoiAssistant)
    (query prompt category : string) :
  classified w self query prompt category ->
  In category (intents self) ->
  replies self !! category = Some "RAG" ->
  let segment := default "unified" (segment_assignments self !! category) in
  PyDict.get (indices self) segment = None ->
  get_response w self query =
    (Returned (PyStr ("Error: No database found for segment '" +:+ segment +:+ "'")),
     self, [EvClassify prompt; EvLookupIndex segment]) /\
  PyString.contains segment (missing_segment segment) = true.
Proof.
  intros (Hix & Hp & Hc) Hin Hrag segment Hseg.
  apply in_intents_In in Hin. apply reply_is_Some in Hrag.
  split.
  - route. fold segment. rewrite Hseg. reflexivity.
  - apply contains_infix.
Qed.

Lemma missing_segment_reported_witness :
  let a := fst (initialize_assistant (Shop.installing Shop.billing_down)
                                     Shop.two_segments_swapped) in
  fst (fst (get_response (Shop.answers "refund" "30 days") a
                         "can I get a refund?")) =
    Returned (PyStr "Error: No database found for segment 'billing'").
Proof.
  intros a.
  destruct (missing_segment_reported (Shop.answers "refund" "30 days") a
              "can I get a refund?" "classify: can I get a refund?" "refund")
    as [H _].
  - repeat split; reflexivity.
  - cbn. auto.
  - reflexivity.
  - reflexivity.
  - rewrite H. reflexivity.
Defined.

(** ** The "I don't know" substitution of the RAG branch *)

(** What the branch does: when the chain answers one of the two disclaimers,
    the result handed to [save_context] and then returned is the attribute
    [self.dont_know_response] itself, whatever it holds; it is neither indexed
    by the intent nor replaced by a default. *)
Lemma dont_know_substitution (w : World) (self : VoiAssistant)
    (query prompt category answer : string) (ix : index) (stored : list message) :
  classified w self query prompt category ->
  In category (intents self) ->
  replies self !! category = Some "RAG" ->
  let segment := default "unified" (segment_assignments self !! category) in
  PyDict.get (indices self) segment = Some ix ->
  chain_run w (llm self) ix query (load_memory_variables (memory self))
    = Returned (answer, stored) ->
  answer = "I don't know" \/ answer = "I don't know." ->
  get_response w self query =
    save_and_return (with_memory self (memory self ++ stored))
      [EvClassify prompt; EvLookupIndex segment; EvRetrieve segment query]
      query (dont_know_response self).
Proof.
  intros (Hix & Hp & Hc) Hin Hrag segment Hseg Hrun Hidk.
  apply in_intents_In in Hin. apply reply_is_Some in Hrag.
  assert (is_dont_know answer = true) as Hd by (destruct Hidk; subst; reflexivity).
  route. fold segment. rewrite Hseg, Hrun, Hd. reflexivity.
Qed.

(** C2: the code at the failing inputs.  With no [dont_know_response]
    configured, a RAG intent whose chain answers "I don't know" gets as its
    result the empty dictionary [{}], not a default string; with a per-intent
    mapping configured, it gets the whole mapping, not the entry of the
    intent.  In both cases that dictionary is what is handed to
    [save_context], which rejects it: the call raises and returns no reply. *)
Theorem dont_know_reply_is_the_whole_attribute :
  let unconfigured :=
    get_response (Shop.answers "refund" "I don't know")
                 (Shop.ready PyNone) "can I get a refund?" in
  let per_intent :=
    get_response (Shop.answers "refund" "I don't know.")
                 (Shop.ready (PyDict [("refund", "Please contact support.")]))
                 "can I get a refund?" in
  (last (snd unconfigured) = Some (EvSaveContext "can I get a refund?" (PyDict []))
   /\ fst (fst unconfigured) = Raised (ValidationError "1 validation error for AIMessage"))
  /\
  (last (snd per_intent)
     = Some (EvSaveContext "can I get a refund?"
               (PyDict [("refund", "Please contact support.")]))
   /\ fst (fst per_intent) = Raised (ValidationError "1 validation error for AIMessage")).
Proof. repeat split; vm_compute; reflexivity. Qed.

(** C5: whenever [get_response] returns, what it returns is a string: the
    missing-segment message, or a result that [save_context] accepted as the
    content of the assistant's message, which only a string is. *)
Theorem get_response_returns_a_string (w : World) (self self' : VoiAssistant)
    (query : string) (v : pyval) (trace : list event) :
  get_response w self query = (Returned v, self', trace) ->
  exists s : string, v = PyStr s.
Proof.
  unfold get_response, substitute. intros H.
  repeat case_match; simplify_eq; try by eexists.
  all: match goal with
       | Hs : save_and_return _ _ _ ?r = _ |- _ =>
           apply save_and_return_Returned in Hs as (-> & Hstr & _);
           destruct r; try discriminate Hstr; by eexists
       end.
Qed.

Lemma get_response_returns_a_string_witness :
  exists s : string,
    fst (fst (get_response (Shop.answers "refund" "Within 30 days.") (Shop.ready PyNone)
                           "can I get a refund?")) = Returned (PyStr s).
Proof.
  destruct (get_response (Shop.answers "refund" "Within 30 days.") (Shop.ready PyNone)
              "can I get a refund?") as [[r self'] trace] eqn:E.
  assert (r = Returned (PyStr "Within 30 days.")) as ->.
  { change r with (fst (fst (r, self', trace))). rewrite <- E. reflexivity. }
  destruct (get_response_returns_a_string _ _ _ _ _ _ E) as [s Hs].
  exists s. cbn. by rewrite Hs.
Defined.

(** ** Initialization *)

Section Initialization.

Variable w : World.

Lemma build_segments_cons (seg : string) (urls : list string)
    (rest : list (string * list string)) (ix : list (string * index)) :
  build_segments w ((seg, urls) :: rest) ix =
  match build_segment w urls with
  | Returned i => build_segments w rest (PyDict.set ix seg i)
  | Raised e => (ix, Some e)
  end.
Proof. reflexivity. Qed.

(** As long as the segments build, the loop goes on with the store grown by
    their names. *)
Lemma build_segments_prefix (pre rest : list (string * list string))
    (ix : list (string * index)) :
  Forall (fun su => exists i, build_segment w (snd su) = Returned i) pre ->
  exists ix',
    build_segments w (pre ++ rest) ix = build_segments w rest ix' /\
    forall s, PyDict.mem s ix' = true <->
              (PyDict.mem s ix = true \/ In s (map fst pre)).
Proof.
  intros Hpre. revert ix.
  induction Hpre as [|[seg urls] pre [i Hi] _ IH]; intros ix.
  - exists ix. split; [reflexivity|]. cbn. tauto.
  - destruct (IH (PyDict.set ix seg i)) as (ix' & Hrun & Hmem).
    exists ix'. split.
    + cbn [snd] in Hi. rewrite <- app_comm_cons, build_segments_cons, Hi.
      exact Hrun.
    + intros s. rewrite Hmem, mem_set, orb_true_iff, String.eqb_eq. cbn. tauto.
Qed.

(** The first segment that fails ends the loop with the store as it is. *)
Lemma build_segments_failure (seg : string) (urls : list string)
    (post : list (string * list string)) (ix : list (string * index)) (e : exn) :
  build_segment w urls = Raised e ->
  build_segments w ((seg, urls) :: post) ix = (ix, Some e).
Proof. intros H. by rewrite build_segments_cons, H. Qed.

End Initialization.




(** ** Memory ordering across calls *)

Section Ordering.

Lemma saved_turn (self self' : VoiAssistant) (trace trace' : list event)
    (q : string) (r v : pyval) (base : list message) :
  save_and_return self trace q r = (Returned v, self', trace') ->
  (exists stored, memory self = base ++ stored) ->
  (exists stored,
      memory self' = base ++ stored ++ [HumanMessage (PyStr q); AIMessage v]) /\
  get_most_recent_query self' = PyStr q /\
  get_most_recent_response self' = v.
Proof.
  intros H [stored Hbase].
  destruct (recent_after_save self self' trace trace' q r v H) as (Hm & Hq & Hr).
  split; [|by split].
  exists stored. by rewrite Hm, Hbase, <- app_assoc.
Qed.

(** A call that returns without taking the early return has saved its turn
    last. *)
Lemma get_response_saves (w : World) (self self' : VoiAssistant) (q : string)
    (v : pyval) (trace : list event) :
  get_response w self q = (Returned v, self', trace) ->
  missing_segment_guard w self q = false ->
  (exists stored,
      memory self' = memory self ++ stored ++ [HumanMessage (PyStr q); AIMessage v]) /\
  get_most_recent_query self' = PyStr q /\
  get_most_recent_response self' = v.
Proof.
  unfold get_response, missing_segment_guard, PyDict.mem.
  intros H G.
  assert (exists stored, memory self = memory self ++ stored) as Hsame
    by (exists []; by rewrite app_nil_r).
  destruct (PyDict.is_empty (indices self)); [discriminate|].
  destruct (prompt_func w q 1 (role self) (intents self)) as [prompt|]; [|discriminate].
  destruct (openaiAPI w prompt (Tenths 5) (openai_key self)) as [category|];
    [|discriminate].
  destruct (in_intents category (intents self)); [|by eapply saved_turn].
  destruct (reply_is self category "RAG").
  - destruct (PyDict.get (indices self) _) as [ix|]; [|discriminate].
    destruct (chain_run w (llm self) ix q _) as [[answer stored]|]; [|discriminate].
    destruct (is_dont_know answer);
      (eapply saved_turn; [exact H | by exists stored]).
  - destruct (reply_is self category "role_based_llm_reply").
    + destruct (openaiReply w q (Tenths 9) category (openai_key self) (role self));
        [by eapply saved_turn | discriminate].
    + destruct (substitute self _) as [[result|] lookups];
        [by eapply saved_turn | discriminate].
Qed.

Lemma respond_all_app (self : VoiAssistant) (c1 c2 : list (World * string)) :
  respond_all self (c1 ++ c2) =
  (fst (respond_all self c1) ++ fst (respond_all (snd (respond_all self c1)) c2),
   snd (respond_all (snd (respond_all self c1)) c2)).
Proof.
  revert self. induction c1 as [|[w q] c1 IH]; intros self.
  - cbn. by destruct (respond_all self c2).
  - cbn. destruct (get_response w self q) as [[r self'] tr].
    rewrite IH. by destruct (respond_all self' c1).
Qed.

End Ordering.

(** C4, as the code has it: a call that returns appends its (query, result)
    turn as the last thing before returning, unless it returned early with
    the missing-segment message, which is not saved.  So after N >= 1
    sequential calls, if the N-th call returned a result and did not take
    that early return, [get_most_recent_query] is the N-th query and
    [get_most_recent_response] is the N-th result. *)
Theorem memory_ordering (self after : VoiAssistant) (calls : list (World * string))
    (w : World) (q : string) (results : list (outcome pyval)) (v : pyval) :
  respond_all self (calls ++ [(w, q)]) = (results, after) ->
  last results = Some (Returned v) ->
  missing_segment_guard w (snd (respond_all self calls)) q = false ->
  (exists stored,
      memory after = memory (snd (respond_all self calls)) ++ stored
                       ++ [HumanMessage (PyStr q); AIMessage v]) /\
  get_most_recent_query after = PyStr q /\
  get_most_recent_response after = v.
Proof.
  rewrite respond_all_app. cbn [respond_all].
  set (before := snd (respond_all self calls)).
  destruct (get_response w before q) as [[r self'] tr] eqn:Hcall.
  cbn [fst snd]. intros [= <- <-] Hlast Hguard.
  rewrite last_snoc in Hlast. injection Hlast as ->.
  exact (get_response_saves w before self' q v tr Hcall Hguard).
Qed.

Lemma memory_ordering_witness :
  let calls := [(Shop.classifies "greeting", "hi");
                (Shop.answers "refund" "Within 30 days.",
                 "can I get a refund?")] in
  let after := snd (respond_all (Shop.ready PyNone) calls) in
  get_most_recent_query after = PyStr "can I get a refund?" /\
  get_most_recent_response after = PyStr "Within 30 days.".
Proof.
  intros calls after.
  refine (proj2 (memory_ordering (Shop.ready PyNone) after
            [(Shop.classifies "greeting", "hi")]
            (Shop.answers "refund" "Within 30 days.")
            "can I get a refund?" (fst (respond_all (Shop.ready PyNone) calls))
            (PyStr "Within 30 days.") _ _ _)).
  - vm_compute. reflexivity.
  - vm_compute. reflexivity.
  - vm_compute. reflexivity.
Defined.

(** C4, counterexample: the segment "billing" assigned to the RAG intent
    "refund" was not built.  After the two calls "hi" and "can I get a
    refund?", the second of which returns the missing-segment message, the
    most recent query is still "hi" and the most recent response is the first
    reply: the second turn was never saved. *)
Lemma memory_ordering_counterexample :
  let self := fst (initialize_assistant (Shop.installing Shop.billing_down)
                                        Shop.two_segments_swapped) in
  let calls := [(Shop.classifies "greeting", "hi");
                (Shop.answers "refund" "Within 30 days.",
                 "can I get a refund?")] in
  let results := fst (respond_all self calls) in
  let after := snd (respond_all self calls) in
  results =
    [Returned (PyStr "Hello, Error: Most recent query could not be retrieved!");
     Returned (PyStr "Error: No database found for segment 'billing'")] /\
  get_most_recent_query after = PyStr "hi" /\
  get_most_recent_query after <> PyStr "can I get a refund?" /\
  get_most_recent_response after
    = PyStr "Hello, Error: Most recent query could not be retrieved!" /\
  get_most_recent_response after
    <> PyStr "Error: No database found for segment 'billing'".
Proof. repeat split; try (vm_compute; reflexivity); vm_compute; discriminate. Qed.

(** ** Static templates *)

Section Templates.

Lemma plain_cons (c : ascii) (s : string) :
  plain (String c s) = true -> Ascii.eqb "{" c = false /\ plain s = true.
Proof.
  unfold plain. cbn. rewrite andb_true_r, negb_true_iff, orb_false_iff.
  intros [H1 H2]. by rewrite H2.
Qed.

Lemma startswith_plain_cons (tok : string) (c : ascii) (s : string) :
  braced tok -> Ascii.eqb "{" c = false -> PyString.startswith tok (String c s) = false.
Proof. intros [t ->] H. cbn [PyString.startswith]. by rewrite H. Qed.

Lemma replace_plain (tok new s rest : string) :
  braced tok -> plain s = true ->
  PyString.replace_from 0 tok new (s +:+ rest)
  = s +:+ PyString.replace_from 0 tok new rest.
Proof.
  intros Htok. induction s as [|c s IH]; intros Hs; [reflexivity|].
  apply plain_cons in Hs as [Hc Hs].
  rewrite !append_cons. cbn [PyString.replace_from].
  rewrite (startswith_plain_cons tok c _ Htok Hc). by rewrite IH.
Qed.

Lemma contains_plain (tok s rest : string) :
  braced tok -> plain s = true ->
  PyString.contains tok (s +:+ rest) = PyString.contains tok rest.
Proof.
  intros Htok. induction s as [|c s IH]; intros Hs; [reflexivity|].
  apply plain_cons in Hs as [Hc Hs].
  rewrite append_cons. cbn [PyString.contains].
  rewrite (startswith_plain_cons tok c _ Htok Hc). by rewrite IH.
Qed.

Lemma replace_from_skip (p tok new rest : string) :
  PyString.replace_from (String.length p) tok new (p +:+ rest)
  = PyString.replace_from 0 tok new rest.
Proof.
  induction p as [|c p IH]; [reflexivity|].
  rewrite append_cons. cbn [String.length PyString.replace_from]. exact IH.
Qed.

(** An occurrence at the head is replaced and the scan resumes after it. *)
Lemma replace_token (c : ascii) (t new rest : string) :
  PyString.replace_from 0 (String c t) new (String c t +:+ rest)
  = new +:+ PyString.replace_from 0 (String c t) new rest.
Proof.
  pose proof (startswith_append (String c t) rest) as Hs.
  rewrite append_cons in Hs |- *. cbn [PyString.replace_from].
  rewrite Hs.
  change (String.length (String c t) - 1) with (String.length t - 0).
  rewrite Nat.sub_0_r.
  by rewrite replace_from_skip.
Qed.

Lemma replace_from_cons (old new : string) (c : ascii) (s : string) :
  PyString.replace_from 0 old new (String c s) =
  if PyString.startswith old (String c s)
  then new +:+ PyString.replace_from (String.length old - 1) old new s
  else String c (PyString.replace_from 0 old new s).
Proof. reflexivity. Qed.

Lemma contains_cons (old : string) (c : ascii) (s : string) :
  PyString.contains old (String c s) =
  PyString.startswith old (String c s) || PyString.contains old s.
Proof. reflexivity. Qed.

Lemma query_token_cons : query_token = String "{" "most_recent_query}".
Proof. reflexivity. Qed.

Lemma response_token_cons : response_token = String "{" "most_recent_response}".
Proof. reflexivity. Qed.

Lemma braced_response : braced response_token.
Proof. by eexists. Qed.

Lemma braced_query : braced query_token.
Proof. by eexists. Qed.

Lemma plain_query_tail : plain "most_recent_query}" = true.
Proof. reflexivity. Qed.

Lemma plain_response_tail : plain "most_recent_response}" = true.
Proof. reflexivity. Qed.

(** Neither token begins with the other. *)
Lemma startswith_response_query (rest : string) :
  PyString.startswith response_token (query_token +:+ rest) = false.
Proof. reflexivity. Qed.

Lemma startswith_query_response (rest : string) :
  PyString.startswith query_token (response_token +:+ rest) = false.
Proof. reflexivity. Qed.

(** The other token is not an occurrence and contains none: it is copied. *)
Lemma replace_response_skips_query (new rest : string) :
  PyString.replace_from 0 response_token new (query_token +:+ rest)
  = query_token +:+ PyString.replace_from 0 response_token new rest.
Proof.
  pose proof (startswith_response_query rest) as Hs.
  rewrite query_token_cons in Hs |- *. rewrite append_cons in Hs |- *.
  rewrite replace_from_cons, Hs.
  rewrite replace_plain; [reflexivity | exact braced_response | exact plain_query_tail].
Qed.

Lemma replace_query_skips_response (new rest : string) :
  PyString.replace_from 0 query_token new (response_token +:+ rest)
  = response_token +:+ PyString.replace_from 0 query_token new rest.
Proof.
  pose proof (startswith_query_response rest) as Hs.
  rewrite response_token_cons in Hs |- *. rewrite append_cons in Hs |- *.
  rewrite replace_from_cons, Hs.
  rewrite replace_plain; [reflexivity | exact braced_query | exact plain_response_tail].
Qed.

Lemma contains_response_skips_query (rest : string) :
  PyString.contains response_token (query_token +:+ rest)
  = PyString.contains response_token rest.
Proof.
  pose proof (startswith_response_query rest) as Hs.
  rewrite query_token_cons in Hs |- *. rewrite append_cons in Hs |- *.
  rewrite contains_cons, Hs. cbn [orb].
  apply contains_plain; [exact braced_response | exact plain_query_tail].
Qed.

Lemma contains_query_skips_response (rest : string) :
  PyString.contains query_token (response_token +:+ rest)
  = PyString.contains query_token rest.
Proof.
  pose proof (startswith_query_response rest) as Hs.
  rewrite response_token_cons in Hs |- *. rewrite append_cons in Hs |- *.
  rewrite contains_cons, Hs. cbn [orb].
  apply contains_plain; [exact braced_query | exact plain_response_tail].
Qed.

(** On a template made of brace-free text and tokens, replacing the response
    token fills exactly the response placeholders; the query placeholders
    keep their token text. *)
Lemma replace_response_render (new : string) (ps : list piece) :
  Forall plain_literal ps ->
  PyString.replace response_token new (render ps) = fill new query_token ps.
Proof.
  unfold PyString.replace, render.
  induction 1 as [|[s| |] ps Hp _ IH]; cbn [fill]; [reflexivity| | |].
  - rewrite replace_plain; [by rewrite IH | exact braced_response | exact Hp].
  - rewrite response_token_cons at 2. rewrite <- response_token_cons at 1.
    rewrite response_token_cons at 1 2. rewrite replace_token.
    rewrite <- response_token_cons. by rewrite IH.
  - by rewrite replace_response_skips_query, IH.
Qed.

Lemma replace_query_render (new : string) (ps : list piece) :
  Forall plain_literal ps ->
  PyString.replace query_token new (render ps) = fill response_token new ps.
Proof.
  unfold PyString.replace, render.
  induction 1 as [|[s| |] ps Hp _ IH]; cbn [fill]; [reflexivity| | |].
  - rewrite replace_plain; [by rewrite IH | exact braced_query | exact Hp].
  - by rewrite replace_query_skips_response, IH.
  - rewrite query_token_cons at 1 2. rewrite replace_token.
    rewrite <- query_token_cons. by rewrite IH.
Qed.

Lemma contains_response_render (ps : list piece) :
  Forall plain_literal ps ->
  PyString.contains response_token (render ps) = existsb is_response_token ps.
Proof.
  unfold render.
  induction 1 as [|[s| |] ps Hp _ IH]; cbn [fill existsb is_response_token];
    [reflexivity| | |].
  - rewrite contains_plain; [exact IH | exact braced_response | exact Hp].
  - apply contains_startswith, startswith_append.
  - by rewrite contains_response_skips_query, IH.
Qed.

Lemma contains_query_render (ps : list piece) :
  Forall plain_literal ps ->
  PyString.contains query_token (render ps) = existsb is_query_token ps.
Proof.
  unfold render.
  induction 1 as [|[s| |] ps Hp _ IH]; cbn [fill existsb is_query_token];
    [reflexivity| | |].
  - rewrite contains_plain; [exact IH | exact braced_query | exact Hp].
  - by rewrite contains_query_skips_response, IH.
  - apply contains_startswith, startswith_append.
Qed.

End Templates.

(** ** The static-template branch and the dispatch on the reply kind *)

Section Dispatch.

Variables (w : World) (self : VoiAssistant) (query prompt category : string).
Hypothesis Hclassified : classified w self query prompt category.
Hypothesis Hintent : In category (intents self).

(** The three ways through the [if] / [elif] / [else] on the reply kind. *)
Lemma rag_run :
  replies self !! category = Some "RAG" ->
  get_response w self query =
  let segment := default "unified" (segment_assignments self !! category) in
  let trace := [EvClassify prompt; EvLookupIndex segment] in
  match PyDict.get (indices self) segment with
  | None => (Returned (PyStr (missing_segment segment)), self, trace)
  | Some ix =>
      let trace := trace ++ [EvRetrieve segment query] in
      match chain_run w (llm self) ix query (load_memory_variables (memory self)) with
      | Raised e => (Raised e, self, trace)
      | Returned (result, stored) =>
          save_and_return (with_memory self (memory self ++ stored)) trace query
            (if is_dont_know result then dont_know_response self else PyStr result)
      end
  end.
Proof.
  destruct Hclassified as (Hix & Hp & Hc). intros Hrag.
  apply in_intents_In in Hintent as Hin. apply reply_is_Some in Hrag.
  route. cbn zeta.
  destruct (PyDict.get (indices self) _); [|reflexivity].
  destruct (chain_run w (llm self) _ query _) as [[result stored]|]; [|reflexivity].
  by destruct (is_dont_know result).
Qed.

Lemma role_based_run :
  replies self !! category = Some "role_based_llm_reply" ->
  get_response w self query =
  let trace := [EvClassify prompt; EvRoleReply query category] in
  match openaiReply w query (Tenths 9) category (openai_key self) (role self) with
  | Raised e => (Raised e, self, trace)
  | Returned result => save_and_return self trace query (PyStr result)
  end.
Proof.
  destruct Hclassified as (Hix & Hp & Hc). intros Hrole.
  apply in_intents_In in Hintent as Hin.
  assert (reply_is self category "RAG" = false) as Hrag
    by (apply reply_is_not; rewrite Hrole; discriminate).
  apply reply_is_Some in Hrole.
  route. reflexivity.
Qed.

Lemma static_run :
  replies self !! category <> Some "RAG" ->
  replies self !! category <> Some "role_based_llm_reply" ->
  get_response w self query =
  match substitute self (template_of self category) with
  | (Returned result, lookups) =>
      save_and_return self ([EvClassify prompt] ++ lookups) query (PyStr result)
  | (Raised e, lookups) => (Raised e, self, [EvClassify prompt] ++ lookups)
  end.
Proof.
  destruct Hclassified as (Hix & Hp & Hc). intros Hrag Hrole.
  apply in_intents_In in Hintent as Hin.
  apply reply_is_not in Hrag, Hrole.
  unfold get_response. rewrite Hix, Hp, Hc, Hin, Hrag, Hrole. reflexivity.
Qed.

End Dispatch.

Section Static.

Variables (w : World) (self : VoiAssistant) (query prompt category : string).
Variables (previous_response previous_query : string).
Hypothesis Hclassified : classified w self query prompt category.
Hypothesis Hintent : In category (intents self).
Hypothesis Hrag : replies self !! category <> Some "RAG".
Hypothesis Hrole : replies self !! category <> Some "role_based_llm_reply".
Hypothesis Hresponse : get_most_recent_response self = PyStr previous_response.
Hypothesis Hquery : get_most_recent_query self = PyStr previous_query.

(** The reply of a static intent, when both lookups yield strings. *)
Lemma static_result :
  let template := template_of self category in
  fst (fst (get_response w self query)) =
    Returned (PyStr
      (if PyString.contains response_token template
       then PyString.replace response_token previous_response template
       else if PyString.contains query_token template
            then PyString.replace query_token previous_query template
            else template)) /\
  length (List.filter is_lookup (snd (get_response w self query))) <= 1.
Proof.
  intros template.
  rewrite (static_run w self query prompt category Hclassified Hintent Hrag Hrole).
  fold template. unfold substitute. rewrite Hresponse, Hquery.
  destruct (PyString.contains response_token template);
    [|destruct (PyString.contains query_token template)];
    (split; [reflexivity | cbn; lia]).
Qed.

End Static.

Section Structured.

Variables (previous_response previous_query : string) (ps : list piece).
Hypothesis Hplain : Forall plain_literal ps.

Lemma fill_without_query (r q q' : string) (l : list piece) :
  existsb is_query_token l = false -> fill r q l = fill r q' l.
Proof.
  induction l as [|[s| |] l IH]; cbn [fill existsb is_query_token orb]; intros H;
    [reflexivity | by rewrite IH | by rewrite IH | discriminate].
Qed.

(** The same reply read on the pieces of the template: with a response
    placeholder present only the response placeholders are filled, otherwise
    only the query placeholders are. *)
Lemma structured_result :
  (if PyString.contains response_token (render ps)
   then PyString.replace response_token previous_response (render ps)
   else if PyString.contains query_token (render ps)
        then PyString.replace query_token previous_query (render ps)
        else render ps)
  = if existsb is_response_token ps
    then fill previous_response query_token ps
    else fill response_token previous_query ps.
Proof.
  rewrite contains_response_render, contains_query_render by exact Hplain.
  destruct (existsb is_response_token ps).
  - by apply replace_response_render.
  - destruct (existsb is_query_token ps) eqn:Hq.
    + by apply replace_query_render.
    + unfold render. by apply fill_without_query.
Qed.

End Structured.

(** C8: for a static-template intent one call performs at most one kind of
    placeholder substitution and at most one memory lookup.  A template that
    contains [{most_recent_response}] has that token replaced and
    [{most_recent_query}] left as it is; only a template without
    [{most_recent_response}] has [{most_recent_query}] replaced. *)
Theorem one_substitution_per_call (w : World) (self : VoiAssistant)
    (query prompt category previous_response previous_query : string) :
  classified w self query prompt category ->
  In category (intents self) ->
  replies self !! category <> Some "RAG" ->
  replies self !! category <> Some "role_based_llm_reply" ->
  get_most_recent_response self = PyStr previous_response ->
  get_most_recent_query self = PyStr previous_query ->
  let template := default "I'm not sure how to respond to that."
                          (replies self !! category) in
  let result := fst (fst (get_response w self query)) in
  result =
    Returned (PyStr
      (if PyString.contains "{most_recent_response}" template
       then PyString.replace "{most_recent_response}" previous_response template
       else if PyString.contains "{most_recent_query}" template
            then PyString.replace "{most_recent_query}" previous_query template
            else template)) /\
  length (List.filter is_lookup (snd (get_response w self query))) <= 1 /\
  forall ps : list piece,
    Forall plain_literal ps -> template = render ps ->
    result =
      Returned (PyStr
        (if existsb is_response_token ps
         then fill previous_response "{most_recent_query}" ps
         else fill "{most_recent_response}" previous_query ps)).
Proof.
  intros Hc Hin Hrag Hrole Hr Hq template result.
  destruct (static_result w self query prompt category previous_response
              previous_query Hc Hin Hrag Hrole Hr Hq) as [Hres Hlen].
  split; [exact Hres | split; [exact Hlen|]].
  intros ps Hplain Hps. subst result. rewrite Hres.
  change (template_of self category) with template. rewrite Hps.
  do 2 f_equal. by apply structured_result.
Qed.

Lemma one_substitution_per_call_witness :
  fst (fst (get_response (Shop.classifies "recap") Shop.recap "what now?"))
    = Returned (PyStr "You asked {most_recent_query}; I said Hello!").
Proof.
  destruct (one_substitution_per_call (Shop.classifies "recap")
              Shop.recap "what now?" "classify: what now?" "recap" "Hello!" "hi")
    as (_ & _ & H).
  - repeat split; reflexivity.
  - cbn. auto.
  - vm_compute. discriminate.
  - vm_compute. discriminate.
  - reflexivity.
  - reflexivity.
  - rewrite (H [Lit "You asked "; QueryToken; Lit "; I said "; ResponseToken]).
    + reflexivity.
    + repeat constructor.
    + vm_compute. reflexivity.
Defined.

(** C9: with an empty memory the two lookups do not fail; they yield the
    strings "Error: Most recent response could not be retrieved" and
    "Error: Most recent query could not be retrieved", and a static template
    has that string put in the place of the placeholder it substitutes (the
    response placeholder if present, else the query placeholder). *)
Theorem empty_memory_sentinel (w : World) (self : VoiAssistant)
    (query prompt category : string) :
  memory self = [] ->
  get_most_recent_response self
    = PyStr "Error: Most recent response could not be retrieved" /\
  get_most_recent_query self
    = PyStr "Error: Most recent query could not be retrieved" /\
  (classified w self query prompt category ->
   In category (intents self) ->
   replies self !! category <> Some "RAG" ->
   replies self !! category <> Some "role_based_llm_reply" ->
   let template := default "I'm not sure how to respond to that."
                           (replies self !! category) in
   let result := fst (fst (get_response w self query)) in
   (PyString.contains "{most_recent_response}" template = true ->
    result = Returned (PyStr (PyString.replace "{most_recent_response}"
                                "Error: Most recent response could not be retrieved"
                                template))) /\
   (PyString.contains "{most_recent_response}" template = false ->
    PyString.contains "{most_recent_query}" template = true ->
    result = Returned (PyStr (PyString.replace "{most_recent_query}"
                                "Error: Most recent query could not be retrieved"
                                template))) /\
   forall ps : list piece,
     Forall plain_literal ps -> template = render ps ->
     result =
       Returned (PyStr
         (if existsb is_response_token ps
          then fill "Error: Most recent response could not be retrieved"
                    "{most_recent_query}" ps
          else fill "{most_recent_response}"
                    "Error: Most recent query could not be retrieved" ps))).
Proof.
  intros Hempty.
  assert (get_most_recent_response self = PyStr response_not_found) as Hr
    by (unfold get_most_recent_response; by rewrite Hempty).
  assert (get_most_recent_query self = PyStr query_not_found) as Hq
    by (unfold get_most_recent_query; by rewrite Hempty).
  split; [exact Hr | split; [exact Hq|]].
  intros Hc Hin Hrag Hrole template result.
  destruct (static_result w self query prompt category response_not_found
              query_not_found Hc Hin Hrag Hrole Hr Hq) as [Hres _].
  change (template_of self category) with template in Hres.
  fold result in Hres. repeat split.
  - intros Ht. fold response_token in Ht. by rewrite Hres, Ht.
  - intros Ht Ht'. fold response_token in Ht. fold query_token in Ht'.
    by rewrite Hres, Ht, Ht'.
  - intros ps Hplain Hps. rewrite Hres, Hps. do 2 f_equal.
    by apply structured_result.
Qed.

Lemma empty_memory_sentinel_witness :
  fst (fst (get_response (Shop.classifies "greeting")
                         (Shop.ready PyNone) "hi"))
    = Returned (PyStr "Hello, Error: Most recent query could not be retrieved!").
Proof.
  destruct (empty_memory_sentinel (Shop.classifies "greeting")
              (Shop.ready PyNone) "hi" "classify: hi" "greeting")
    as (_ & _ & H).
  - reflexivity.
  - destruct H as (_ & H & _).
    + repeat split; reflexivity.
    + cbn. auto.
    + vm_compute. discriminate.
    + vm_compute. discriminate.
    + rewrite H; reflexivity.
Defined.

Section Traces.


End Traces.



(** ** More on the memory lookups *)

Section Lookups.

Lemma find_app {A : Type} (p : A -> bool) (l1 l2 : list A) :
  List.find p (l1 ++ l2) =
  match List.find p l1 with Some x => Some x | None => List.find p l2 end.
Proof.
  induction l1 as [|a l1 IH]; [reflexivity|].
  cbn. by destruct (p a).
Qed.

Lemma last_cons_filter {A : Type} (p : A -> bool) (a : A) (l : list A) :
  last (List.filter p (a :: l)) =
  match last (List.filter p l) with
  | Some x => Some x
  | None => if p a then Some a else None
  end.
Proof.
  cbn [List.filter]. destruct (p a); [|by destruct (last (List.filter p l))].
  destruct (List.filter p l) as [|b f] eqn:E; [reflexivity|].
  rewrite last_cons. by destruct (last (b :: f)) eqn:E'.
Qed.

(** Scanning the reversed history for the first match finds the last match. *)
Lemma find_rev_last {A : Type} (p : A -> bool) (l : list A) :
  List.find p (rev l) = last (List.filter p l).
Proof.
  induction l as [|a l IH]; [reflexivity|].
  rewrite last_cons_filter, <- IH. cbn [rev]. rewrite find_app. cbn.
  by destruct (List.find p (rev l)).
Qed.

Lemma last_content_filter (p : message -> bool) (history : list message) :
  last_content p history = content <$> last (List.filter p history).
Proof. unfold last_content. by rewrite find_rev_last. Qed.

End Lookups.

(** X1: [get_most_recent_response] returns the content of the last assistant
    message of the memory, wherever it stands among the human messages, and
    the string "Error: Most recent response could not be retrieved" when the
    memory holds no assistant message (empty or not). *)
Theorem most_recent_response_is_last_assistant_message (self : VoiAssistant) :
  get_most_recent_response self =
  default (PyStr "Error: Most recent response could not be retrieved")
          (content <$> last (List.filter is_AIMessage (memory self))).
Proof. by rewrite get_most_recent_response_last, last_content_filter. Qed.

(** X2: [get_most_recent_query] returns the content of the last human message
    of the memory, and the string "Error: Most recent query could not be
    retrieved" when the memory holds no human message. *)
Theorem most_recent_query_is_last_human_message (self : VoiAssistant) :
  get_most_recent_query self =
  default (PyStr "Error: Most recent query could not be retrieved")
          (content <$> last (List.filter is_HumanMessage (memory self))).
Proof. by rewrite get_most_recent_query_last, last_content_filter. Qed.

(** ** More on initialization *)

Section Segments.

Variable w : World.

Lemma load_urls_cons (pdf_url : string) (rest : list string) (all_docs : list document) :
  load_urls w (pdf_url :: rest) all_docs =
  docs ← load_pdf w pdf_url; load_urls w rest (all_docs ++ docs).
Proof.
  unfold load_pdf. cbn [load_urls].
  destruct (download_pdf_from_url w pdf_url) as [path|]; [|reflexivity]. cbn.
  destruct (loader_load w path) as [documents|]; [|reflexivity]. cbn.
  destruct (split_documents w 1000 200 documents) as [docs|]; [|reflexivity]. cbn.
  by destruct (os_remove w path).
Qed.

Lemma load_urls_all (urls : list string) (chunks : list (list document))
    (all_docs : list document) :
  Forall2 (fun url docs => load_pdf w url = Returned docs) urls chunks ->
  load_urls w urls all_docs = Returned (all_docs ++ concat chunks).
Proof.
  intros H. revert all_docs.
  induction H as [|url docs urls chunks Hurl _ IH]; intros all_docs.
  - cbn. by rewrite app_nil_r.
  - rewrite load_urls_cons, Hurl. cbn. by rewrite IH, app_assoc.
Qed.

Lemma load_urls_failure (urls : list string) (all_docs : list document)
    (url : string) (e : exn) :
  In url urls -> load_pdf w url = Raised e ->
  exists e', load_urls w urls all_docs = Raised e'.
Proof.
  intros Hin Hfail. revert all_docs.
  induction urls as [|u urls IH]; intros all_docs; [destruct Hin|].
  rewrite load_urls_cons.
  destruct (load_pdf w u) as [docs|e0] eqn:Hu; cbn; [|by eexists].
  destruct Hin as [->|Hin]; [congruence | by apply IH].
Qed.

Lemma get_None_keys {V : Type} (d : list (string * V)) (k : string) :
  PyDict.get d k = None <-> ~ In k (PyDict.keys d).
Proof.
  induction d as [|[k' v] d IH]; cbn; [tauto|].
  destruct (String.eqb_spec k' k) as [->|Hne]; [split; [discriminate | tauto]|].
  rewrite IH. tauto.
Qed.

Lemma set_fresh {V : Type} (d : list (string * V)) (k : string) (v : V) :
  ~ In k (PyDict.keys d) -> PyDict.set d k v = d ++ [(k, v)].
Proof.
  induction d as [|[k' v'] d IH]; cbn; [reflexivity|]. intros Hk.
  destruct (String.eqb_spec k' k) as [->|Hne]; [tauto|].
  rewrite IH; [reflexivity | tauto].
Qed.

Lemma keys_set {V : Type} (d : list (string * V)) (k : string) (v : V) :
  PyDict.keys (PyDict.set d k v) =
  if PyDict.mem k d then PyDict.keys d else PyDict.keys d ++ [k].
Proof.
  unfold PyDict.mem, PyDict.keys.
  induction d as [|[k' v'] d IH]; cbn [PyDict.set PyDict.get map fst]; [reflexivity|].
  destruct (String.eqb_spec k' k) as [->|Hne]; cbn [map fst]; [reflexivity|].
  rewrite IH. by destruct (PyDict.get d k).
Qed.

Lemma NoDup_keys_set {V : Type} (d : list (string * V)) (k : string) (v : V) :
  NoDup (PyDict.keys d) -> NoDup (PyDict.keys (PyDict.set d k v)).
Proof.
  intros Hd. rewrite keys_set. unfold PyDict.mem.
  destruct (PyDict.get d k) eqn:E; [exact Hd|].
  apply get_None_keys in E.
  apply NoDup_app. repeat split; [exact Hd | | by apply NoDup_singleton].
  intros x Hx Hx'. apply list_elem_of_In in Hx.
  apply list_elem_of_singleton in Hx'. by subst.
Qed.

(** When every declared segment builds, the loop appends the entries in
    declaration order. *)
Lemma build_segments_all (items : list (string * list string))
    (built ix : list (string * index)) :
  Forall2 (built_from w) items built ->
  NoDup (map fst items) ->
  (forall s, In s (map fst items) -> ~ In s (PyDict.keys ix)) ->
  build_segments w items ix = (ix ++ built, None).
Proof.
  intros H. revert ix.
  induction H as [|[seg urls] [seg' i] items built [Hname Hbuild] _ IH];
    intros ix Hnodup Hfresh.
  - cbn. by rewrite app_nil_r.
  - cbn [fst snd] in Hname, Hbuild. subst seg'.
    rewrite build_segments_cons, Hbuild.
    cbn [map fst] in Hnodup, Hfresh. apply NoDup_cons in Hnodup as [Hseg Hnodup].
    rewrite set_fresh by (apply Hfresh; by left).
    rewrite IH; [by rewrite <- app_assoc | exact Hnodup |].
    intros s Hs. unfold PyDict.keys. rewrite map_app, in_app_iff. cbn.
    intros [Hix|[<-|[]]].
    + by apply (Hfresh s); [right|].
    + apply Hseg. by apply list_elem_of_In.
Qed.

(** The loop only adds to the store, and keeps its keys distinct. *)
Lemma build_segments_grows (items : list (string * list string))
    (ix : list (string * index)) (s : string) :
  PyDict.mem s ix = true -> PyDict.mem s (fst (build_segments w items ix)) = true.
Proof.
  revert ix. induction items as [|[seg urls] items IH]; intros ix Hs; [exact Hs|].
  rewrite build_segments_cons.
  destruct (build_segment w urls) as [i|e]; [|exact Hs].
  apply IH. rewrite mem_set, Hs. apply orb_true_r.
Qed.

Lemma build_segments_NoDup (items : list (string * list string))
    (ix : list (string * index)) :
  NoDup (PyDict.keys ix) -> NoDup (PyDict.keys (fst (build_segments w items ix))).
Proof.
  revert ix. induction items as [|[seg urls] items IH]; intros ix Hix; [exact Hix|].
  rewrite build_segments_cons.
  destruct (build_segment w urls) as [i|e]; [|exact Hix].
  by apply IH, NoDup_keys_set.
Qed.

End Segments.

(** X3: when every URL of a segment is fetched, loaded and split, the
    segment's index is built from the chunks of all its documents, in the
    order of the URLs. *)
Theorem segment_built_from_all_documents (w : World) (urls : list string)
    (chunks : list (list document)) :
  Forall2 (fun url docs => load_pdf w url = Returned docs) urls chunks ->
  build_segment w urls = from_documents w (concat chunks).
Proof.
  intros H. unfold build_segment. by rewrite (load_urls_all w urls chunks []).
Qed.

Lemma segment_built_from_all_documents_witness :
  build_segment (Shop.installing Shop.online) [Shop.refund_pdf; Shop.billing_pdf]
  = Returned (Chroma ["/tmp/https://docs.example/refund.pdf";
                      "/tmp/https://down.example/billing.pdf"]).
Proof.
  rewrite (segment_built_from_all_documents _ _
             [["/tmp/https://docs.example/refund.pdf"];
              ["/tmp/https://down.example/billing.pdf"]]).
  - reflexivity.
  - repeat constructor.
Defined.

(** X4: a segment is built from all of its documents or not at all: if
    fetching, loading, splitting or removing fails for any one of its URLs,
    building the segment raises and no index is made for it. *)
Theorem segment_fails_with_any_document (w : World) (urls : list string)
    (url : string) (e : exn) :
  In url urls ->
  load_pdf w url = Raised e ->
  exists e', build_segment w urls = Raised e'.
Proof.
  intros Hin Hfail.
  destruct (load_urls_failure w urls [] url e Hin Hfail) as [e' He'].
  exists e'. unfold build_segment. by rewrite He'.
Qed.

Lemma segment_fails_with_any_document_witness :
  exists e', build_segment (Shop.installing Shop.billing_down)
                           [Shop.refund_pdf; Shop.billing_pdf] = Raised e'.
Proof.
  apply (segment_fails_with_any_document _ _ Shop.billing_pdf
           (Exception "cannot fetch https://down.example/billing.pdf")).
  - cbn. auto.
  - reflexivity.
Defined.

(** X5: on a fresh store, when the embeddings are created and every declared
    segment builds, [initialize_assistant] leaves exactly one index per
    declared segment, in declaration order, each built from that segment's
    documents, and prints the summary line with their number and names. *)
Theorem initialize_builds_every_segment (w : World) (self : VoiAssistant)
    (built : list (string * index)) :
  OpenAIEmbeddings w = Returned tt ->
  indices self = [] ->
  NoDup (map fst (pdf_urls self)) ->
  Forall2 (built_from w) (pdf_urls self) built ->
  initialize_assistant w self =
    (with_indices self built,
     [EvPrint ("Assistant initialized with " +:+ PyString.of_nat (length built)
               +:+ " segments: " +:+ PyString.join ", " (map fst built))]).
Proof.
  intros Hemb Hix Hnodup Hbuilt. unfold initialize_assistant.
  rewrite Hemb, Hix, (build_segments_all w (pdf_urls self) built []);
    [reflexivity | exact Hbuilt | exact Hnodup | auto].
Qed.

Lemma initialize_builds_every_segment_witness :
  let after := initialize_assistant (Shop.installing Shop.online) Shop.two_segments in
  indices (fst after) =
    [("billing", Chroma ["/tmp/https://down.example/billing.pdf"]);
     ("unified", Chroma ["/tmp/https://docs.example/refund.pdf"])] /\
  snd after = [EvPrint "Assistant initialized with 2 segments: billing, unified"].
Proof.
  intros after. subst after.
  rewrite (initialize_builds_every_segment _ _
             [("billing", Chroma ["/tmp/https://down.example/billing.pdf"]);
              ("unified", Chroma ["/tmp/https://docs.example/refund.pdf"])]).
  - split; reflexivity.
  - reflexivity.
  - reflexivity.
  - apply (bool_decide_unpack _). vm_compute. exact I.
  - repeat constructor.
Defined.

(** X6: [initialize_assistant] never raises and only ever adds to the store:
    in every world it changes nothing but [indices], every segment present
    before is present after, distinct keys stay distinct, and exactly one
    line is printed. *)
Theorem initialize_only_adds_indices (w : World) (self : VoiAssistant) :
  let after := initialize_assistant w self in
  fst after = with_indices self (indices (fst after)) /\
  (forall s, PyDict.mem s (indices self) = true ->
             PyDict.mem s (indices (fst after)) = true) /\
  (NoDup (PyDict.keys (indices self)) -> NoDup (PyDict.keys (indices (fst after)))) /\
  exists line, snd after = [EvPrint line].
Proof.
  unfold initialize_assistant.
  destruct (OpenAIEmbeddings w) as [[]|e].
  - pose proof (build_segments_grows w (pdf_urls self) (indices self)) as Hgrow.
    pose proof (build_segments_NoDup w (pdf_urls self) (indices self)) as Hnd.
    destruct (build_segments w (pdf_urls self) (indices self)) as [ix [e|]];
      cbn [fst snd indices with_indices] in *; repeat split; eauto.
  - cbn [fst snd]. repeat split; eauto. by destruct self.
Qed.

Lemma initialize_only_adds_indices_witness :
  let ready := Shop.ready PyNone in
  let after := initialize_assistant (Shop.installing Shop.billing_down)
                 (with_indices Shop.two_segments (indices ready)) in
  PyDict.mem "unified" (indices (fst after)) = true /\
  NoDup (PyDict.keys (indices (fst after))).
Proof.
  intros ready after.
  destruct (initialize_only_adds_indices (Shop.installing Shop.billing_down)
              (with_indices Shop.two_segments (indices ready)))
    as (_ & Hgrow & Hnodup & _).
  split.
  - apply Hgrow. reflexivity.
  - apply Hnodup. apply (bool_decide_unpack _). vm_compute. exact I.
Defined.

(** X7: with no segment declared ([pdf_urls] an empty dict) initialization
    reports success with zero segments, yet the store stays empty and every
    later [get_response] raises "Assistant is not initialized.". *)
Theorem initialize_without_segments (w : World) (self : VoiAssistant) :
  OpenAIEmbeddings w = Returned tt ->
  pdf_urls self = [] ->
  indices self = [] ->
  let after := initialize_assistant w self in
  snd after = [EvPrint "Assistant initialized with 0 segments: "] /\
  forall (w' : World) (query : string),
    fst (fst (get_response w' (fst after) query))
      = Raised (ValueError "Assistant is not initialized.").
Proof.
  intros Hemb Hurls Hix. unfold initialize_assistant.
  rewrite Hemb, Hurls, Hix. cbn [build_segments fst snd]. split; [reflexivity|].
  intros w' query. unfold get_response. reflexivity.
Qed.

Lemma initialize_without_segments_witness :
  let nothing := VoiAssistant_init "sk-test" (UrlsDict []) "a shop assistant"
                   Shop.shop_intents Shop.shop_replies ∅ PyNone in
  let after := initialize_assistant (Shop.installing Shop.online) nothing in
  snd after = [EvPrint "Assistant initialized with 0 segments: "] /\
  fst (fst (get_response (Shop.classifies "greeting") (fst after) "hi"))
    = Raised (ValueError "Assistant is not initialized.").
Proof.
  intros nothing after.
  destruct (initialize_without_segments (Shop.installing Shop.online) nothing)
    as [Hout Hraise]; try reflexivity.
  split; [exact Hout | apply Hraise].
Defined.

(** X8: an assistant constructed with a single URL or a plain list of URLs
    has the one segment "unified": after a successful initialization the
    store is exactly the index of that segment under the name "unified". *)
Theorem single_source_is_unified (w : World) (key role_ : string)
    (urls : pdf_urls_arg) (intents_ : list string)
    (replies_ assignments : gmap string string) (dont_know : pyval) (i : index) :
  let sources := match urls with
                 | UrlsList l => l
                 | UrlsOne u => [u]
                 | UrlsDict _ => []
                 end in
  (forall d, urls <> UrlsDict d) ->
  OpenAIEmbeddings w = Returned tt ->
  build_segment w sources = Returned i ->
  let self := VoiAssistant_init key urls role_ intents_ replies_ assignments dont_know in
  indices (fst (initialize_assistant w self)) = [("unified", i)] /\
  snd (initialize_assistant w self)
    = [EvPrint "Assistant initialized with 1 segments: unified"].
Proof.
  intros sources Hnot Hemb Hbuild self. unfold initialize_assistant.
  rewrite Hemb.
  assert (pdf_urls self = [("unified", sources)]) as ->
    by (destruct urls as [d| |]; [by destruct (Hnot d) | reflexivity | reflexivity]).
  rewrite build_segments_cons, Hbuild. split; reflexivity.
Qed.

Lemma single_source_is_unified_witness :
  indices (fst (initialize_assistant (Shop.installing Shop.online) (Shop.fresh PyNone)))
  = [("unified", Chroma ["/tmp/https://docs.example/refund.pdf"])].
Proof.
  refine (proj1 (single_source_is_unified (Shop.installing Shop.online) "sk-test"
                   "a shop assistant" (UrlsOne Shop.refund_pdf) Shop.shop_intents
                   Shop.shop_replies ∅ PyNone
                   (Chroma ["/tmp/https://docs.example/refund.pdf"]) _ _ _)).
  - discriminate.
  - reflexivity.
  - reflexivity.
Defined.

(** ** More on [get_response] *)

Section Frame.

Lemma with_memory_same (self : VoiAssistant) :
  with_memory self (memory self ++ []) = self.
Proof. destruct self. cbn. by rewrite app_nil_r. Qed.

Lemma save_and_return_frame (self : VoiAssistant) (trace : list event)
    (q : string) (r : pyval) :
  exists added,
    snd (fst (save_and_return self trace q r)) = with_memory self (memory self ++ added).
Proof.
  unfold save_and_return.
  destruct (save_context (memory self) q r) as [saved|e] eqn:E; cbn [fst snd].
  - apply save_context_Returned in E as [_ ->]. by eexists.
  - exists []. by rewrite with_memory_same.
Qed.

(** Whatever the branch, the assistant after a call is the assistant before it
    with messages appended to its memory. *)
Lemma get_response_frame (w : World) (self : VoiAssistant) (query : string) :
  exists added,
    snd (fst (get_response w self query)) = with_memory self (memory self ++ added).
Proof.
  unfold get_response.
  repeat case_match; cbn [fst snd];
    try (exists []; by rewrite with_memory_same);
    try apply save_and_return_frame.
  all: match goal with
       | |- context [save_and_return (with_memory ?a (memory ?a ++ ?l)) ?t ?q ?r] =>
           destruct (save_and_return_frame (with_memory a (memory a ++ l)) t q r)
             as [added ->];
           exists (l ++ added); cbn [memory with_memory]; by rewrite app_assoc
       end.
Qed.

(** A call raises either before it reaches [save_context], and then the
    assistant is untouched, or in [save_context] itself, which happens only
    for the [dont_know_response] of the RAG branch when it is not a string. *)
Lemma get_response_raised (w : World) (self : VoiAssistant) (query : string) (e : exn) :
  fst (fst (get_response w self query)) = Raised e ->
  ((forall q r, ~ In (EvSaveContext q r) (snd (get_response w self query))) /\
   snd (fst (get_response w self query)) = self) \/
  (In (EvSaveContext query (dont_know_response self)) (snd (get_response w self query)) /\
   is_str (dont_know_response self) = false /\
   e = content_rejected).
Proof.
  unfold get_response, substitute.
  repeat case_match; simplify_eq; rewrite ?save_and_return_str; cbn [fst snd];
    intros Hraised; try discriminate Hraised.
  all: try (left; split; [|reflexivity]; intros q r; cbn; intros Hev;
            repeat (destruct Hev as [Hev|Hev]; [discriminate Hev|]); by destruct Hev).
  all: right; revert Hraised; unfold save_and_return; cbn [dont_know_response with_memory];
    destruct (save_context _ query (dont_know_response self)) as [saved|e'] eqn:E;
    cbn [fst snd]; intros Hraised; [discriminate Hraised|];
    injection Hraised as ->; apply save_context_Raised in E as [Hstr ->];
    repeat split; [|exact Hstr]; rewrite !in_app_iff; right; by left.
Qed.

Lemma classified_frame (w : World) (self : VoiAssistant) (m : list message)
    (query prompt category : string) :
  classified w self query prompt category ->
  classified w (with_memory self m) query prompt category.
Proof. intros H. exact H. Qed.

End Frame.

(** X9: in every world and on every branch, [get_response] changes nothing of
    the assistant but its memory (the configuration and the index store are
    as before), and the memory only grows: the messages it held are still
    there, in the same order, before the new ones. *)
Theorem get_response_only_appends_to_memory (w : World) (self : VoiAssistant)
    (query : string) :
  let after := snd (fst (get_response w self query)) in
  after = with_memory self (memory after) /\
  indices after = indices self /\
  exists added, memory after = memory self ++ added.
Proof.
  cbn zeta. destruct (get_response_frame w self query) as [added ->].
  repeat split. by exists added.
Qed.

(** X10: a call of [get_response] that raises before it reaches
    [save_context] (not initialized, a failing prompt, classifier, chain or
    role-model call, the [TypeError] of [str.replace]) leaves the assistant
    exactly as it was.  The only raising call that reaches [save_context] is
    the one rejected there: a RAG disclaimer whose replacement
    [dont_know_response] is not a string. *)
Theorem raising_call_saves_nothing (w : World) (self : VoiAssistant)
    (query : string) (e : exn) :
  fst (fst (get_response w self query)) = Raised e ->
  ((forall q r, ~ In (EvSaveContext q r) (snd (get_response w self query))) /\
   snd (fst (get_response w self query)) = self) \/
  (In (EvSaveContext query (dont_know_response self)) (snd (get_response w self query)) /\
   is_str (dont_know_response self) = false /\
   e = ValidationError "1 validation error for AIMessage").
Proof. apply get_response_raised. Qed.

Lemma raising_call_saves_nothing_witness :
  snd (fst (get_response Shop.classifier_down (Shop.ready PyNone) "hi"))
  = Shop.ready PyNone.
Proof.
  destruct (raising_call_saves_nothing Shop.classifier_down (Shop.ready PyNone)
              "hi" (Exception "connection timed out")) as [[_ H] | (_ & _ & H)].
  - reflexivity.
  - exact H.
  - discriminate H.
Defined.

Section Branches.

Variables (w : World) (self : VoiAssistant) (query prompt category : string).
Hypothesis Hclassified : classified w self query prompt category.
Hypothesis Hintent : In category (intents self).

Lemma is_dont_know_false (answer : string) :
  answer <> "I don't know" -> answer <> "I don't know." -> is_dont_know answer = false.
Proof.
  intros H1 H2. unfold is_dont_know.
  apply String.eqb_neq in H1, H2. by rewrite H1, H2.
Qed.

Lemma is_dont_know_true (answer : string) :
  answer = "I don't know" \/ answer = "I don't know." -> is_dont_know answer = true.
Proof. intros [->| ->]; reflexivity. Qed.

(** The RAG branch when the segment is built, the chain answers and the
    result is a string. *)
Lemma rag_answered (answer reply : string) (ix : index) (stored : list message) :
  replies self !! category = Some "RAG" ->
  let segment := default "unified" (segment_assignments self !! category) in
  PyDict.get (indices self) segment = Some ix ->
  chain_run w (llm self) ix query (load_memory_variables (memory self))
    = Returned (answer, stored) ->
  (if is_dont_know answer then dont_know_response self else PyStr answer)
    = PyStr reply ->
  get_response w self query =
    (Returned (PyStr reply),
     with_memory self (memory self ++ stored
                         ++ [HumanMessage (PyStr query); AIMessage (PyStr reply)]),
     [EvClassify prompt; EvLookupIndex segment; EvRetrieve segment query;
      EvSaveContext query (PyStr reply)]).
Proof.
  intros Hrag segment Hix Hrun Hreply.
  rewrite (rag_run w self query prompt category Hclassified Hintent Hrag).
  cbn zeta. fold segment. rewrite Hix, Hrun, Hreply, save_and_return_str.
  cbn [memory with_memory]. by rewrite <- app_assoc.
Qed.

End Branches.

(** X11: for a RAG intent whose segment is built, an answer of the chain that
    is not exactly "I don't know" or "I don't know." is returned as it is
    (other spellings of the disclaimer included); the retrieval runs on the
    index of [segment_assignments.get(category, "unified")], and the turn is
    saved after whatever the chain itself stored in the shared memory. *)
Theorem rag_answer_returned_verbatim (w : World) (self : VoiAssistant)
    (query prompt category answer : string) (ix : index) (stored : list message) :
  classified w self query prompt category ->
  In category (intents self) ->
  replies self !! category = Some "RAG" ->
  let segment := default "unified" (segment_assignments self !! category) in
  PyDict.get (indices self) segment = Some ix ->
  chain_run w (llm self) ix query (load_memory_variables (memory self))
    = Returned (answer, stored) ->
  answer <> "I don't know" ->
  answer <> "I don't know." ->
  get_response w self query =
    (Returned (PyStr answer),
     with_memory self (memory self ++ stored
                         ++ [HumanMessage (PyStr query); AIMessage (PyStr answer)]),
     [EvClassify prompt; EvLookupIndex segment; EvRetrieve segment query;
      EvSaveContext query (PyStr answer)]).
Proof.
  intros Hc Hin Hrag segment Hix Hrun H1 H2.
  apply (rag_answered w self query prompt category Hc Hin answer answer ix stored
           Hrag Hix Hrun).
  by rewrite (is_dont_know_false answer H1 H2).
Qed.

Lemma rag_answer_returned_verbatim_witness :
  fst (fst (get_response (Shop.answers "refund" "i don't know") (Shop.ready PyNone)
                         "can I get a refund?"))
  = Returned (PyStr "i don't know").
Proof.
  rewrite (rag_answer_returned_verbatim _ _ _ "classify: can I get a refund?" "refund"
             "i don't know" (Chroma ["/tmp/https://docs.example/refund.pdf"])
             [HumanMessage (PyStr "can I get a refund?");
              AIMessage (PyStr "i don't know")]).
  - reflexivity.
  - repeat split; reflexivity.
  - cbn. auto.
  - reflexivity.
  - reflexivity.
  - reflexivity.
  - discriminate.
  - discriminate.
Defined.

(** X12: when [dont_know_response] holds a plain string, a RAG answer that is
    exactly "I don't know" or "I don't know." is replaced by that string,
    whatever the intent, and it is the replacement that is saved as the
    assistant's turn. *)
Theorem configured_string_replaces_disclaimer (w : World) (self : VoiAssistant)
    (query prompt category answer configured : string) (ix : index)
    (stored : list message) :
  classified w self query prompt category ->
  In category (intents self) ->
  replies self !! category = Some "RAG" ->
  let segment := default "unified" (segment_assignments self !! category) in
  PyDict.get (indices self) segment = Some ix ->
  chain_run w (llm self) ix query (load_memory_variables (memory self))
    = Returned (answer, stored) ->
  answer = "I don't know" \/ answer = "I don't know." ->
  dont_know_response self = PyStr configured ->
  get_response w self query =
    (Returned (PyStr configured),
     with_memory self (memory self ++ stored
                         ++ [HumanMessage (PyStr query); AIMessage (PyStr configured)]),
     [EvClassify prompt; EvLookupIndex segment; EvRetrieve segment query;
      EvSaveContext query (PyStr configured)]).
Proof.
  intros Hc Hin Hrag segment Hix Hrun Hidk Hconf.
  apply (rag_answered w self query prompt category Hc Hin answer configured ix stored
           Hrag Hix Hrun).
  by rewrite (is_dont_know_true answer Hidk), Hconf.
Qed.

Lemma configured_string_replaces_disclaimer_witness :
  fst (fst (get_response (Shop.answers "refund" "I don't know.")
                         (Shop.ready (PyStr "Please contact support."))
                         "can I get a refund?"))
  = Returned (PyStr "Please contact support.").
Proof.
  rewrite (configured_string_replaces_disclaimer _ _ _
             "classify: can I get a refund?" "refund" "I don't know."
             "Please contact support."
             (Chroma ["/tmp/https://docs.example/refund.pdf"])
             [HumanMessage (PyStr "can I get a refund?");
              AIMessage (PyStr "I don't know.")]).
  - reflexivity.
  - repeat split; reflexivity.
  - cbn. auto.
  - reflexivity.
  - reflexivity.
  - reflexivity.
  - by right.
  - reflexivity.
Defined.

(** X13: for a role-based intent the model's reply is returned unfiltered and
    saved as the turn: no disclaimer is replaced on this branch, and neither
    the index store nor the memory lookups are consulted. *)
Theorem role_based_reply_unfiltered (w : World) (self : VoiAssistant)
    (query prompt category reply : string) :
  classified w self query prompt category ->
  In category (intents self) ->
  replies self !! category = Some "role_based_llm_reply" ->
  openaiReply w query (Tenths 9) category (openai_key self) (role self)
    = Returned reply ->
  get_response w self query =
    (Returned (PyStr reply),
     with_memory self (memory self
                         ++ [HumanMessage (PyStr query); AIMessage (PyStr reply)]),
     [EvClassify prompt; EvRoleReply query category;
      EvSaveContext query (PyStr reply)]).
Proof.
  intros Hc Hin Hrole Hreply.
  rewrite (role_based_run w self query prompt category Hc Hin Hrole).
  cbn zeta. by rewrite Hreply.
Qed.

Lemma role_based_reply_unfiltered_witness :
  fst (fst (get_response (Shop.world Shop.online "other" "none" "I don't know")
                         (Shop.ready (PyStr "Please contact support."))
                         "tell me a joke"))
  = Returned (PyStr "I don't know").
Proof.
  rewrite (role_based_reply_unfiltered _ _ _ "classify: tell me a joke" "other"
             "I don't know").
  - reflexivity.
  - repeat split; reflexivity.
  - cbn. auto.
  - reflexivity.
  - reflexivity.
Defined.

(** X14: a static template that contains neither placeholder is returned
    unchanged, without any memory lookup and whatever the memory holds; the
    same call repeated on the assistant it leaves returns the same reply. *)
Theorem plain_template_returned_verbatim (w : World) (self : VoiAssistant)
    (query prompt category : string) :
  classified w self query prompt category ->
  In category (intents self) ->
  replies self !! category <> Some "RAG" ->
  replies self !! category <> Some "role_based_llm_reply" ->
  let template := default "I'm not sure how to respond to that."
                          (replies self !! category) in
  PyString.contains "{most_recent_response}" template = false ->
  PyString.contains "{most_recent_query}" template = false ->
  get_response w self query =
    (Returned (PyStr template),
     with_memory self (memory self
                         ++ [HumanMessage (PyStr query); AIMessage (PyStr template)]),
     [EvClassify prompt; EvSaveContext query (PyStr template)]) /\
  fst (fst (get_response w (snd (fst (get_response w self query))) query))
    = Returned (PyStr template).
Proof.
  intros Hc Hin Hrag Hrole template Hr Hq.
  assert (forall m, get_response w (with_memory self m) query =
            (Returned (PyStr template),
             with_memory self (m ++ [HumanMessage (PyStr query);
                                     AIMessage (PyStr template)]),
             [EvClassify prompt; EvSaveContext query (PyStr template)])) as Hany.
  { intros m.
    rewrite (static_run w (with_memory self m) query prompt category
               (classified_frame w self m query prompt category Hc) Hin Hrag Hrole).
    unfold substitute, template_of. cbn [replies with_memory].
    fold response_token in Hr. fold query_token in Hq. fold default_reply in template.
    fold template. by rewrite Hr, Hq. }
  assert (with_memory self (memory self) = self) as Hself by (by destruct self).
  pose proof (Hany (memory self)) as Hfirst. rewrite Hself in Hfirst.
  split; [exact Hfirst|]. rewrite Hfirst. cbn [fst snd]. by rewrite Hany.
Qed.

Lemma plain_template_returned_verbatim_witness :
  fst (fst (get_response (Shop.classifies "shout") Shop.recap "HELP"))
  = Returned (PyStr "rag").
Proof.
  destruct (plain_template_returned_verbatim (Shop.classifies "shout") Shop.recap
              "HELP" "classify: HELP" "shout") as [H _].
  - repeat split; reflexivity.
  - cbn. auto.
  - vm_compute. discriminate.
  - vm_compute. discriminate.
  - reflexivity.
  - reflexivity.
  - rewrite H. reflexivity.
Defined.

(** ** Initialization followed by queries, and consecutive turns *)

Section Composition.

Lemma get_of_In {V : Type} (d : list (string * V)) (k : string) (v : V) :
  NoDup (PyDict.keys d) -> In (k, v) d -> PyDict.get d k = Some v.
Proof.
  induction d as [|[k' v'] d IH]; intros Hnodup Hin; [destruct Hin|].
  cbn in Hnodup. apply NoDup_cons in Hnodup as [Hk' Hnodup]. cbn.
  destruct Hin as [[= -> ->]|Hin]; [by rewrite String.eqb_refl|].
  destruct (String.eqb_spec k' k) as [->|Hne]; [|by apply IH].
  destruct Hk'. apply list_elem_of_In. change k with (fst (k, v)).
  by apply in_map.
Qed.

Lemma built_from_keys (w : World) (items : list (string * list string))
    (built : list (string * index)) :
  Forall2 (built_from w) items built -> map fst built = map fst items.
Proof.
  induction 1 as [|su si items built [Hname _] _ IH]; [reflexivity|].
  cbn. by rewrite IH, Hname.
Qed.

Lemma mem_false_get {V : Type} (d : list (string * V)) (k : string) :
  PyDict.mem k d <> true -> PyDict.get d k = None.
Proof. unfold PyDict.mem. by destruct (PyDict.get d k). Qed.

Lemma save_and_return_result (self : VoiAssistant) (trace : list event)
    (q : string) (r : pyval) :
  fst (fst (save_and_return self trace q r)) =
  if is_str r then Returned r else Raised content_rejected.
Proof. by destruct r. Qed.

End Composition.

(** X15: after an initialization that stopped at a failing segment, a RAG
    query whose segment is neither of those declared before the failure gets
    the missing-segment message for that segment: the failing segment and the
    ones declared after it are reported missing, not raised on. *)
Theorem unbuilt_segment_reported_after_failure (w0 w : World) (self : VoiAssistant)
    (pre post : list (string * list string)) (seg : string) (urls : list string)
    (e : exn) (query prompt category : string) :
  OpenAIEmbeddings w0 = Returned tt ->
  indices self = [] ->
  pdf_urls self = pre ++ (seg, urls) :: post ->
  Forall (fun su => exists i, build_segment w0 (snd su) = Returned i) pre ->
  build_segment w0 urls = Raised e ->
  let ready := fst (initialize_assistant w0 self) in
  classified w ready query prompt category ->
  In category (intents self) ->
  replies self !! category = Some "RAG" ->
  let segment := default "unified" (segment_assignments self !! category) in
  ~ In segment (map fst pre) ->
  get_response w ready query =
    (Returned (PyStr ("Error: No database found for segment '" +:+ segment +:+ "'")),
     ready, [EvClassify prompt; EvLookupIndex segment]).
Proof.
  intros Hemb Hix Hurls Hpre Hfail ready Hc Hin Hrag segment Hseg.
  destruct (build_segments_prefix w0 pre ((seg, urls) :: post) (indices self) Hpre)
    as (ix' & Hrun & Hmem).
  assert (ready = with_indices self ix') as Hready.
  { unfold ready, initialize_assistant.
    by rewrite Hemb, Hurls, Hrun, (build_segments_failure w0 seg urls post ix' e Hfail). }
  assert (PyDict.get (indices ready) segment = None) as Hnone.
  { rewrite Hready. cbn [indices with_indices]. apply mem_false_get.
    rewrite Hmem, Hix. cbn. intros [H|H]; [discriminate | contradiction]. }
  assert (In category (intents ready)) as Hin' by (by rewrite Hready).
  assert (replies ready !! category = Some "RAG") as Hrag' by (by rewrite Hready).
  rewrite (rag_run w ready query prompt category Hc Hin' Hrag'). cbn zeta.
  assert (segment_assignments ready = segment_assignments self) as ->
    by (by rewrite Hready).
  fold segment. by rewrite Hnone.
Qed.

Lemma unbuilt_segment_reported_after_failure_witness :
  let ready := fst (initialize_assistant (Shop.installing Shop.billing_down)
                                         Shop.two_segments_swapped) in
  get_response (Shop.answers "refund" "Within 30 days.") ready "can I get a refund?" =
    (Returned (PyStr "Error: No database found for segment 'billing'"), ready,
     [EvClassify "classify: can I get a refund?"; EvLookupIndex "billing"]).
Proof.
  apply (unbuilt_segment_reported_after_failure
           (Shop.installing Shop.billing_down) (Shop.answers "refund" "Within 30 days.")
           Shop.two_segments_swapped [("unified", [Shop.refund_pdf])] []
           "billing" [Shop.billing_pdf]
           (Exception "cannot fetch https://down.example/billing.pdf")
           "can I get a refund?" "classify: can I get a refund?" "refund").
  - reflexivity.
  - reflexivity.
  - reflexivity.
  - constructor; [|constructor]. eexists. vm_compute. reflexivity.
  - vm_compute. reflexivity.
  - repeat split; reflexivity.
  - cbn. auto.
  - reflexivity.
  - vm_compute. intros [H|H]; [discriminate H | exact H].
Defined.

(** X16: after an initialization in which every declared segment was built, a
    RAG query is answered by running the chain on the index built from the
    documents of the intent's segment.  The reply is the chain's answer; for a
    disclaimer it is [dont_know_response] when that is a string, and the call
    raises when it is not; an exception of the chain is raised to the caller. *)
Theorem built_segment_is_queried (w0 w : World) (self : VoiAssistant)
    (built : list (string * index)) (query prompt category : string) (i : index) :
  OpenAIEmbeddings w0 = Returned tt ->
  indices self = [] ->
  NoDup (map fst (pdf_urls self)) ->
  Forall2 (built_from w0) (pdf_urls self) built ->
  let ready := fst (initialize_assistant w0 self) in
  classified w ready query prompt category ->
  In category (intents self) ->
  replies self !! category = Some "RAG" ->
  In (default "unified" (segment_assignments self !! category), i) built ->
  fst (fst (get_response w ready query)) =
    match chain_run w (llm self) i query (load_memory_variables (memory self)) with
    | Raised e => Raised e
    | Returned (answer, _) =>
        if is_dont_know answer
        then if is_str (dont_know_response self)
             then Returned (dont_know_response self)
             else Raised (ValidationError "1 validation error for AIMessage")
        else Returned (PyStr answer)
    end.
Proof.
  intros Hemb Hix Hnodup Hbuilt ready Hc Hin Hrag Hseg.
  assert (ready = with_indices self built) as Hready.
  { unfold ready, initialize_assistant.
    rewrite Hemb, Hix, (build_segments_all w0 (pdf_urls self) built [] Hbuilt Hnodup);
      [reflexivity | auto]. }
  assert (In category (intents ready)) as Hin' by (by rewrite Hready).
  assert (replies ready !! category = Some "RAG") as Hrag' by (by rewrite Hready).
  rewrite (rag_run w ready query prompt category Hc Hin' Hrag'). cbn zeta.
  rewrite Hready. cbn [indices segment_assignments llm memory with_indices].
  rewrite (get_of_In built _ i); [| |exact Hseg].
  - destruct (chain_run w (llm self) i query _) as [[answer stored]|]; [|reflexivity].
    rewrite save_and_return_result. cbn [dont_know_response with_indices].
    by destruct (is_dont_know answer).
  - unfold PyDict.keys. by rewrite (built_from_keys w0 (pdf_urls self) built).
Qed.

Lemma built_segment_is_queried_witness :
  let ready := fst (initialize_assistant (Shop.installing Shop.online)
                                         Shop.two_segments) in
  fst (fst (get_response (Shop.answers "refund" "Within 30 days.") ready
                         "can I get a refund?"))
  = Returned (PyStr "Within 30 days.").
Proof.
  intros ready. subst ready.
  rewrite (built_segment_is_queried
             (Shop.installing Shop.online) (Shop.answers "refund" "Within 30 days.")
             Shop.two_segments
             [("billing", Chroma ["/tmp/https://down.example/billing.pdf"]);
              ("unified", Chroma ["/tmp/https://docs.example/refund.pdf"])]
             "can I get a refund?" "classify: can I get a refund?" "refund"
             (Chroma ["/tmp/https://down.example/billing.pdf"])).
  - reflexivity.
  - reflexivity.
  - reflexivity.
  - apply (bool_decide_unpack _). vm_compute. exact I.
  - repeat constructor.
  - repeat split; reflexivity.
  - cbn. auto.
  - reflexivity.
  - left. reflexivity.
Defined.

(** X17: a static template is filled from the turn just before it: after a
    call that returned the string [r1] for the query [q1] (and did not return
    early), the next call for a static intent replaces
    [{most_recent_response}] by [r1], or, in a template without it,
    [{most_recent_query}] by [q1]. *)
Theorem template_filled_from_previous_turn (w1 w2 : World)
    (self after : VoiAssistant) (q1 r1 q2 prompt category : string)
    (trace : list event) :
  get_response w1 self q1 = (Returned (PyStr r1), after, trace) ->
  missing_segment_guard w1 self q1 = false ->
  classified w2 after q2 prompt category ->
  In category (intents self) ->
  replies self !! category <> Some "RAG" ->
  replies self !! category <> Some "role_based_llm_reply" ->
  let template := default "I'm not sure how to respond to that."
                          (replies self !! category) in
  fst (fst (get_response w2 after q2)) =
    Returned (PyStr
      (if PyString.contains "{most_recent_response}" template
       then PyString.replace "{most_recent_response}" r1 template
       else if PyString.contains "{most_recent_query}" template
            then PyString.replace "{most_recent_query}" q1 template
            else template)).
Proof.
  intros Hfirst Hguard Hc Hin Hrag Hrole template.
  destruct (get_response_saves w1 self after q1 (PyStr r1) trace Hfirst Hguard)
    as (_ & Hq & Hr).
  destruct (get_response_frame w1 self q1) as [added Hframe].
  rewrite Hfirst in Hframe. cbn [fst snd] in Hframe.
  assert (intents after = intents self) as Hi by (by rewrite Hframe).
  assert (replies after = replies self) as Hrep by (by rewrite Hframe).
  rewrite <- Hi in Hin. rewrite <- Hrep in Hrag, Hrole.
  destruct (static_result w2 after q2 prompt category r1 q1 Hc Hin Hrag Hrole Hr Hq)
    as [Hres _].
  rewrite Hres. unfold template_of. by rewrite Hrep.
Qed.

Lemma template_filled_from_previous_turn_witness :
  let first := get_response (Shop.classifies "greeting") (Shop.ready PyNone) "hi" in
  fst (fst (get_response (Shop.classifies "greeting") (snd (fst first)) "hi again"))
  = Returned (PyStr "Hello, hi!").
Proof.
  intros first.
  rewrite (template_filled_from_previous_turn
             (Shop.classifies "greeting") (Shop.classifies "greeting")
             (Shop.ready PyNone) (snd (fst first)) "hi"
             "Hello, Error: Most recent query could not be retrieved!"
             "hi again" "classify: hi again" "greeting" (snd first)).
  - reflexivity.
  - reflexivity.
  - reflexivity.
  - repeat split; reflexivity.
  - cbn. auto.
  - vm_compute. discriminate.
  - vm_compute. discriminate.
Defined.

(** ** Initializing again *)

Section Again.

Variable w : World.

(** The loop leaves alone the entries of segments it does not build. *)
Lemma build_segments_untouched (items : list (string * list string))
    (ix : list (string * index)) (s : string) :
  ~ In s (map fst items) ->
  PyDict.get (fst (build_segments w items ix)) s = PyDict.get ix s.
Proof.
  revert ix. induction items as [|[seg urls] items IH]; intros ix Hs; [reflexivity|].
  rewrite build_segments_cons. cbn [map fst] in Hs.
  destruct (build_segment w urls) as [i|e]; [|reflexivity].
  rewrite IH by (intros Hin; apply Hs; by right).
  apply get_set_ne. intros ->. apply Hs. by left.
Qed.

(** When every declared segment builds, whatever the store held, each
    declared segment ends up with its newly built index. *)
Lemma build_segments_replaces (items : list (string * list string))
    (built ix : list (string * index)) :
  Forall2 (built_from w) items built ->
  NoDup (map fst items) ->
  snd (build_segments w items ix) = None /\
  forall s i, In (s, i) built ->
              PyDict.get (fst (build_segments w items ix)) s = Some i.
Proof.
  intros H. revert ix.
  induction H as [|[seg urls] [seg' i0] items built [Hname Hbuild] _ IH];
    intros ix Hnodup.
  - split; [reflexivity | intros s i []].
  - cbn [fst snd] in Hname, Hbuild. subst seg'.
    cbn [map fst] in Hnodup. apply NoDup_cons in Hnodup as [Hseg Hnodup].
    rewrite build_segments_cons, Hbuild.
    destruct (IH (PyDict.set ix seg i0) Hnodup) as [Hnone Hget].
    split; [exact Hnone|]. intros s i [[= <- <-]|Hin]; [|by apply Hget].
    rewrite build_segments_untouched by (by rewrite <- list_elem_of_In).
    apply get_set_eq.
Qed.

End Again.

(** X18: initialization can be run again: in a world where the embeddings are
    created and every declared segment builds, whatever the store held before
    (for instance after an earlier run that failed half-way), every declared
    segment ends up with its newly built index, the entries of other segments
    are left as they were, and the summary line is printed. *)
Theorem initialize_again_rebuilds (w : World) (self : VoiAssistant)
    (built : list (string * index)) :
  OpenAIEmbeddings w = Returned tt ->
  NoDup (map fst (pdf_urls self)) ->
  Forall2 (built_from w) (pdf_urls self) built ->
  let after := initialize_assistant w self in
  (forall s i, In (s, i) built -> PyDict.get (indices (fst after)) s = Some i) /\
  (forall s, ~ In s (map fst (pdf_urls self)) ->
             PyDict.get (indices (fst after)) s = PyDict.get (indices self) s) /\
  snd after = [EvPrint (initialized_line (indices (fst after)))].
Proof.
  intros Hemb Hnodup Hbuilt. unfold initialize_assistant. rewrite Hemb.
  destruct (build_segments_replaces w (pdf_urls self) built (indices self)
              Hbuilt Hnodup) as [Hnone Hget].
  pose proof (build_segments_untouched w (pdf_urls self) (indices self)) as Hother.
  destruct (build_segments w (pdf_urls self) (indices self)) as [ix [e|]];
    [discriminate Hnone|].
  cbn [fst snd indices with_indices] in *. by repeat split.
Qed.

Lemma initialize_again_rebuilds_witness :
  let half := fst (initialize_assistant (Shop.installing Shop.billing_down)
                                        Shop.two_segments_swapped) in
  let after := initialize_assistant (Shop.installing Shop.online) half in
  indices half = [("unified", Chroma ["/tmp/https://docs.example/refund.pdf"])] /\
  PyDict.get (indices (fst after)) "billing"
    = Some (Chroma ["/tmp/https://down.example/billing.pdf"]) /\
  snd after = [EvPrint "Assistant initialized with 2 segments: unified, billing"].
Proof.
  intros half after.
  destruct (initialize_again_rebuilds (Shop.installing Shop.online) half
              [("unified", Chroma ["/tmp/https://docs.example/refund.pdf"]);
               ("billing", Chroma ["/tmp/https://down.example/billing.pdf"])])
    as (Hget & _ & Hout).
  - reflexivity.
  - apply (bool_decide_unpack _). vm_compute. exact I.
  - repeat constructor.
  - split; [reflexivity|]. split.
    + apply Hget. right. left. reflexivity.
    + subst after. rewrite Hout. reflexivity.
Defined.
